(** * telemetry-opcua-exporter: endpoint negotiation, metric cache, poll and reload

    A shallow embedding of the Go packages [config], [client], [collector] and
    [main] of the exporter, and the properties of the specification that are
    settled on it.

    Conventions of the embedding:
    - a Go [string] is a [string]; a [[]byte] is a [list Byte.byte];
    - the unsigned enumerations and bytes of package [ua] are [Z];
    - a Go [map[string]string] is a [gmap string string];
    - a Go [error] is a value of [error] below, [nil] being [None];
    - [l.Fatal] (log.Fatalln: the process exits) and run-time panics end the
      computation: functions that can reach them return an [outcome];
    - a [chan<-] that a function sends to is the list of the values sent, in
      order;
    - the clock is read by the caller: a function that measures time takes
      the durations it would measure;
    - functions of other repositories (Go's standard library, gopcua,
      client_golang, yaml) and what the outside world answers at start-up
      are fields of the classes [Externals] and [config.Yaml]; the files
      and the answers of the session to a read are arguments.

    The sources hold two texts of packages client and collector. The
    properties are settled on the one that compiles with package config as
    the sources have it (modules [client] and [collector]); the other one is
    embedded in [client_prev] and [collector_prev] and compared at the end. *)

From Stdlib Require Import ZArith Lia DecimalString.
From stdpp Require Import base option list gmap strings.

Local Open Scope string_scope.
Local Open Scope Z_scope.

(** ** Go values shared by the packages *)

Module golang.

(** Go [error] values, by the call that builds them. *)
Inductive error : Type :=
| errorString (msg : string)
    (* errors.New(msg), and the errors of other packages by their message *)
| errInvalidNodeID (cause : error)
    (* fmt.Errorf("invalid node id: %v", err) *)
| errInvalidStatus (status : Z)
    (* fmt.Errorf("invalid status %v", r.Status) *)
| errForMetric (name : string) (labels : gmap string string) (cause : error)
    (* fmt.Errorf("error for metric %s with labels %v (%w)", name, labels, err) *)
| errMetricStatus (name : string) (labels : gmap string string) (status : Z)
    (* fmt.Errorf("error for metric %s with labels %v: %v", name, labels, status) *)
| errMetricCause (name : string) (labels : gmap string string) (cause : error).
    (* fmt.Errorf("error for metric %s with labels %v: %v", name, labels, err) *)

(** An argument of a logger call, [v ...interface{}]. *)
Inductive logArg : Type :=
| argString (s : string)
| argError (e : error).

(** How a function that may call [l.Fatal] or panic ends. [Fatal] carries
    what [l.Fatal(format, v...)] was called with. *)
Inductive outcome (A : Type) : Type :=
| Ok (a : A)
| Fatal (format : string) (v : list logArg)
| Panic (msg : string).
Arguments Ok {A} a.
Arguments Fatal {A} format v.
Arguments Panic {A} msg.

Definition bind {A B : Type} (m : outcome A) (k : A -> outcome B) : outcome B :=
  match m with
  | Ok a => k a
  | Fatal format v => Fatal format v
  | Panic msg => Panic msg
  end.

(** fmt.Sprint of a non-negative int. *)
Definition Sprint (i : nat) : string := NilEmpty.string_of_uint (Nat.to_uint i).

(** strings.HasPrefix(s, prefix). *)
Definition HasPrefix (s pre : string) : bool := String.prefix pre s.

(** strings.Contains(s, substr). *)
Fixpoint Contains (s substr : string) : bool :=
  if String.prefix substr s then true
  else match s with
       | EmptyString => false
       | String _ s' => Contains s' substr
       end.

(** The files the process reads and writes, by path. A path that is absent
    does not exist; an [unreadable] one exists and fails to open with the
    operating system's message [why] ("permission denied", "is a directory"). *)
Inductive file : Type :=
| readable (content : list Byte.byte)
| unreadable (why : string).

(** ioutil.ReadFile(filename): the content, or the message of the
    *os.PathError, which reads [open <path>: <cause>]. *)
Definition ReadFile (fs : gmap string file) (filename : string)
  : list Byte.byte + string :=
  match fs !! filename with
  | Some (readable content) => inl content
  | Some (unreadable why) => inr ("open " ++ filename ++ ": " ++ why)
  | None => inr ("open " ++ filename ++ ": no such file or directory")
  end.

(** ioutil.WriteFile(filename, content, 0644), for a path that can be
    written. The error of a write that fails is dropped by the one caller,
    the reload handler, and such a write is not part of this model: no
    property below rests on what a write leaves in the file. *)
Definition WriteFile (fs : gmap string file) (filename : string)
    (content : list Byte.byte) : gmap string file :=
  <[filename := readable content]> fs.

End golang.
Export golang.

Notation "x <- m ;; k" := (bind m (fun x => k))
  (at level 100, m at next level, right associativity).

(** ** Package config *)

Module config.

Record ServerConfig : Type := {
  Endpoint : string;
  CertPath : string;
  KeyPath : string;
  SecPolicy : string;
  SecMode : string;
  AuthMode : string;
  Username : string;
  Password : string
}.

Record Metric : Type := {
  Name : string;
  Help : string;
  NodeID : string;
  Labels : gmap string string;
  Type_ : string
}.

Record MetricsConfig : Type := { Metrics : list Metric }.

(** [Config] holds two pointers; there is one object behind each for the whole
    run, so the record holds their contents. *)
Record Config : Type := {
  ServerConfig_ : ServerConfig;
  MetricsConfig_ : MetricsConfig
}.

(** The loop of [validate], [i] being the index of the head of [ms]. *)
Fixpoint validate_from (i : nat) (ms : list Metric) : option error :=
  match ms with
  | [] => None
  | m :: rest =>
      if String.eqb (Name m) "" then
        Some (errorString ("missing field 'name' in 'metrics' configuration of metric " ++ Sprint i))
      else if String.eqb (Help m) "" then
        Some (errorString ("missing field 'help' in 'metrics' configuration of metric " ++ Sprint i))
      else if String.eqb (NodeID m) "" then
        Some (errorString ("missing field 'nodeValue' in 'metrics' configuration of metric " ++ Sprint i))
      else if String.eqb (Type_ m) "" then
        Some (errorString ("missing field 'type' in 'metrics' configuration of metric " ++ Sprint i))
      else validate_from (S i) rest
  end.

(** func (mm MetricsConfig) validate() error *)
Definition validate (mm : MetricsConfig) : option error :=
  if Nat.eqb (length (Metrics mm)) 0 then
    Some (errorString "missing field 'metrics' in top configuration")
  else validate_from 0 (Metrics mm).

(** gopkg.in/yaml.v2. [Unmarshal content mm] decodes into the object [mm]
    points to: it gives the object as the decoder leaves it (changed also when
    the decoding fails half-way) and the error. *)
Class Yaml : Type := {
  Unmarshal : list Byte.byte -> MetricsConfig -> MetricsConfig * option error
}.

Section Loading.
Context {yaml : Yaml}.

(** func (mm *MetricsConfig) Unserialize(content []byte) error *)
Definition Unserialize (mm : MetricsConfig) (content : list Byte.byte)
  : MetricsConfig * option error :=
  Unmarshal content mm.

(** func (c *Config) LoadMetricsConfig(filename string) error. [c] is the
    object before the call; the result is the object after it and the
    error. *)
Definition LoadMetricsConfig (c : Config) (fs : gmap string file)
    (filename : string) : Config * option error :=
  match ReadFile fs filename with
  | inr msg =>
      if Contains msg "no such file or directory" then (c, None)
      else (c, Some (errorString msg))
  | inl content =>
      let '(mm, err) := Unserialize (MetricsConfig_ c) content in
      let c' := {| ServerConfig_ := ServerConfig_ c; MetricsConfig_ := mm |} in
      match err with
      | Some e => (c', Some e)
      | None =>
          match validate mm with
          | Some e => (c', Some e)
          | None => (c', None)
          end
      end
  end.

(** func NewConfig(endpoint, certPath, keyPath, secMode, secPolicy, authMode,
    username, password, configPath string), returning a Config or an error *)
Definition NewConfig (fs : gmap string file)
    (endpoint certPath keyPath secMode secPolicy authMode username password
       configPath : string) : Config + error :=
  let c := {| ServerConfig_ := {| Endpoint := endpoint;
                                  CertPath := certPath;
                                  KeyPath := keyPath;
                                  SecMode := secMode;
                                  SecPolicy := secPolicy;
                                  AuthMode := authMode;
                                  Username := username;
                                  Password := password |};
              MetricsConfig_ := {| Metrics := [] |} |} in
  match LoadMetricsConfig c fs configPath with
  | (_, Some err) => inr err
  | (c', None) => inl c'
  end.

End Loading.

End config.

(** ** The packages the exporter imports

    Their data types as far as the exporter reads or builds them, and their
    constants. Their functions are fields of [Externals] further down. *)

Module ua.

(** ua.MessageSecurityMode, a uint32 enumeration. *)
Definition MessageSecurityModeInvalid : Z := 0.
Definition MessageSecurityModeNone : Z := 1.
Definition MessageSecurityModeSign : Z := 2.
Definition MessageSecurityModeSignAndEncrypt : Z := 3.

(** ua.UserTokenType, a uint32 enumeration. *)
Definition UserTokenTypeAnonymous : Z := 0.
Definition UserTokenTypeUserName : Z := 1.
Definition UserTokenTypeCertificate : Z := 2.
Definition UserTokenTypeIssuedToken : Z := 3.

(** ua.StatusOK, of the uint32 type ua.StatusCode. *)
Definition StatusOK : Z := 0.

Definition SecurityPolicyURIPrefix : string :=
  "http://opcfoundation.org/UA/SecurityPolicy#".
Definition SecurityPolicyURINone : string :=
  "http://opcfoundation.org/UA/SecurityPolicy#None".

Record UserTokenPolicy : Type := {
  PolicyID : string;
  TokenType : Z
}.

Record EndpointDescription : Type := {
  EndpointURL : string;
  SecurityMode : Z;
  SecurityPolicyURI : string;
  UserIdentityTokens : list UserTokenPolicy;
  SecurityLevel : Z   (* a byte *)
}.

End ua.

Module tls.

(** What a crypto.PrivateKey interface value holds. *)
Inductive PrivateKey_ : Type :=
| nilKey
| rsaPrivateKey (der : list Byte.byte)    (* a *rsa.PrivateKey *)
| otherPrivateKey (der : list Byte.byte). (* a key of another algorithm *)

Record Certificate_ : Type := {
  Certificate : list (list Byte.byte);
  PrivateKey : PrivateKey_
}.

(** The zero value, [var crt tls.Certificate]. *)
Definition zero : Certificate_ := {| Certificate := []; PrivateKey := nilKey |}.

End tls.

Module opcua.

(** An opcua.Option, by the call that builds it. Durations are in
    nanoseconds, as time.Duration has them. *)
Inductive Option_ : Type :=
| Lifetime (d : Z)
| RequestTimeout (d : Z)
| AutoReconnect (b : bool)
| AuthCertificate (cert : list Byte.byte)
| AuthUsername (user pass : string)
| AuthAnonymous
| SecurityFromEndpoint (e : ua.EndpointDescription) (authType : Z)
| PrivateKey (key : list Byte.byte)
| PrivateKeyFile (filename : string)
| Certificate (cert : list Byte.byte).

(** opcua.NewClient(endpoint, opts...): the client is what it was built from. *)
Record Client : Type := NewClient {
  endpoint : string;
  opts : list Option_
}.

End opcua.

Module time.
Definition Second : Z := 1000000000.
Definition Minute : Z := 60 * Second.
End time.

Module prometheus.

Inductive ValueType : Type := CounterValue | GaugeValue | UntypedValue.

(** prometheus.NewDesc(fqName, help, variableLabels, nil): the descriptor is
    what it was built from. *)
Record Desc : Type := NewDesc {
  fqName : string;
  help : string;
  variableLabels : list string
}.

End prometheus.

(** ** What the exporter takes from outside *)

(** Types of other packages whose values the exporter holds and passes on
    without looking into them. *)
Class Carriers : Type := {
  NodeID : Type;    (* *ua.NodeID *)
  Variant : Type;   (* *ua.Variant *)
  float64 : Type
}.

Module uaread.
Section Types.
Context {carriers : Carriers}.

Record ReadValueID : Type := { ReadValueID_NodeID : NodeID }.

Record ReadRequest : Type := {
  MaxAge : Z;
  NodesToRead : list ReadValueID;
  TimestampsToReturn : Z
}.

(** ua.TimestampsToReturnBoth *)
Definition TimestampsToReturnBoth : Z := 2.

Record DataValue : Type := {
  Value : Variant;
  Status : Z
}.

Record ReadResponse : Type := { Results : list DataValue }.

(** A prometheus.Metric, by the call that builds it. *)
Inductive Metric : Type :=
| InvalidMetric (desc : prometheus.Desc) (err : error)
| ConstMetric (desc : prometheus.Desc) (valueType : prometheus.ValueType)
    (value : float64) (labelValues : list string).

End Types.
End uaread.
Export uaread.

(** Functions of other packages and of the Go run time, and what the outside
    world answers at start-up. *)
Class Externals {carriers : Carriers} : Type := {
  (* strings.ToLower *)
  ToLower : string -> string;
  (* the order in which [for k, v := range m] visits a map; Go fixes no
     order, and two ranges over the same map may differ, where this takes
     one order for a map *)
  rangeMap : gmap string string -> list (string * string);
  (* opcua.GetEndpoints(endpoint) *)
  GetEndpoints : string -> list ua.EndpointDescription + error;
  (* ua.UserTokenTypeFromString(s) *)
  UserTokenTypeFromString : string -> outcome Z;
  (* tls.LoadX509KeyPair(certFile, keyFile) *)
  LoadX509KeyPair : string -> string -> tls.Certificate_ + error;
  (* Connect(ctx) of an opcua.Client *)
  Connect : opcua.Client -> option error;
  (* ua.ParseNodeID(s) *)
  ParseNodeID : string -> NodeID + error;
  (* Float() of a ua.Variant *)
  Float : Variant -> float64;
  (* the conversion float64(n) of an int *)
  float64_of_int : Z -> float64;
  (* the error, if any, with which prometheus.NewConstMetric(desc, valueType,
     value, labelValues...) refuses to build the metric: that of an invalid
     descriptor, or of label values that do not fit it *)
  constMetricError : prometheus.Desc -> list string -> option error
}.

(** ** Package client *)

Module client.
Import config ua.

Section Client.
Context {carriers : Carriers} {ext : Externals}.

(** The policy names that findEndpoint expands to a URI. *)
Definition isPolicyName (s : string) : bool :=
  String.eqb s "None" ||
  String.eqb s "Basic128Rsa15" ||
  String.eqb s "Basic256" ||
  String.eqb s "Basic256Sha256" ||
  String.eqb s "Aes128_Sha256_RsaOaep" ||
  String.eqb s "Aes256_Sha256_RsaPss".

(** findEndpoint, the first switch: the value of [policy] after it. The
    variable starts as the empty string and "auto" leaves it so. *)
Definition resolvePolicy (c : ServerConfig) : outcome string :=
  if String.eqb (SecPolicy c) "auto" then Ok ""
  else if HasPrefix (SecPolicy c) SecurityPolicyURIPrefix then Ok (SecPolicy c)
  else if isPolicyName (SecPolicy c) then Ok (SecurityPolicyURIPrefix ++ SecPolicy c)
  else Fatal "invalid security policy: %s" [argString (SecPolicy c)].

(** findEndpoint, the second switch: the value of [mode] after it. The
    variable starts as zero, ua.MessageSecurityModeInvalid, and "auto" leaves
    it so. *)
Definition resolveMode (c : ServerConfig) : outcome Z :=
  let lower := ToLower (SecMode c) in
  if String.eqb lower "auto" then Ok MessageSecurityModeInvalid
  else if String.eqb lower "none" then Ok MessageSecurityModeNone
  else if String.eqb lower "sign" then Ok MessageSecurityModeSign
  else if String.eqb lower "signandencrypt" then Ok MessageSecurityModeSignAndEncrypt
  else Fatal "invalid security mode: %s" [argString (SecMode c)].

(** findEndpoint, "Allow input of only one of security mode or security
    policy when choosing 'None'": [mode] and [policy] after the [if]. *)
Definition noneForBoth (mode : Z) (policy : string) : Z * string :=
  if (mode =? MessageSecurityModeNone) || String.eqb policy SecurityPolicyURINone
  then (MessageSecurityModeNone, SecurityPolicyURINone)
  else (mode, policy).

(** One [for _, e := range ee] loop of findEndpoint over the variable [ep],
    which starts as nil: [e] replaces [ep] when [e] passes [keep] and either
    [ep] is nil or [better e ep]. *)
Definition scan (keep : EndpointDescription -> bool)
    (better : EndpointDescription -> EndpointDescription -> bool)
    (ee : list EndpointDescription) : option EndpointDescription :=
  fold_left
    (fun ep e =>
       if keep e && match ep with
                    | None => true
                    | Some p => better e p
                    end
       then Some e else ep)
    ee None.

(** e.SecurityLevel >= ep.SecurityLevel *)
Definition levelGe (e ep : EndpointDescription) : bool :=
  SecurityLevel e >=? SecurityLevel ep.

(** e.SecurityMode >= ep.SecurityMode && e.SecurityLevel >= ep.SecurityLevel *)
Definition modeAndLevelGe (e ep : EndpointDescription) : bool :=
  (SecurityMode e >=? SecurityMode ep) && (SecurityLevel e >=? SecurityLevel ep).

(** The condition on [e] alone in each case of the third switch. *)
Definition keeps (c : ServerConfig) (mode : Z) (policy : string)
    (e : EndpointDescription) : bool :=
  if String.eqb (SecMode c) "auto" && String.eqb (SecPolicy c) "auto" then true
  else if negb (String.eqb (SecMode c) "auto") && String.eqb (SecPolicy c) "auto" then
    SecurityMode e =? mode
  else if String.eqb (SecMode c) "auto" && negb (String.eqb (SecPolicy c) "auto") then
    String.eqb (SecurityPolicyURI e) policy
  else String.eqb (SecurityPolicyURI e) policy && (SecurityMode e =? mode).

(** findEndpoint, the third switch, "Find the best endpoint based on our
    input and server recommendation": the value of [ep] after it. *)
Definition selectEndpoint (c : ServerConfig) (mode : Z) (policy : string)
    (ee : list EndpointDescription) : option EndpointDescription :=
  if String.eqb (SecMode c) "auto" && String.eqb (SecPolicy c) "auto" then
    scan (fun _ => true) modeAndLevelGe ee
  else if negb (String.eqb (SecMode c) "auto") && String.eqb (SecPolicy c) "auto" then
    scan (fun e => SecurityMode e =? mode) levelGe ee
  else if String.eqb (SecMode c) "auto" && negb (String.eqb (SecPolicy c) "auto") then
    scan (fun e => String.eqb (SecurityPolicyURI e) policy) levelGe ee
  else
    scan (fun e => String.eqb (SecurityPolicyURI e) policy && (SecurityMode e =? mode))
      levelGe ee.

(** The loop over ep.UserIdentityTokens: whether one has the token type. *)
Definition advertises (ep : EndpointDescription) (utt : Z) : bool :=
  existsb (fun t => TokenType t =? utt) (UserIdentityTokens ep).

Definition noSuitableEndpoint : string :=
  "unable to find suitable server endpoint with selected security policy, security mode and authentication mode".

(** func findEndpoint(c config.ServerConfig, l log.Logger) *ua.EndpointDescription *)
Definition findEndpoint (c : ServerConfig) : outcome EndpointDescription :=
  ee <- match GetEndpoints (Endpoint c) with
        | inl ee => Ok ee
        | inr err => Fatal "get endpoints failed: %v" [argError err]
        end;;
  policy <- resolvePolicy c;;
  mode <- resolveMode c;;
  let '(mode, policy) := noneForBoth mode policy in
  match selectEndpoint c mode policy ee with
  | Some ep =>
      utt <- UserTokenTypeFromString (AuthMode c);;
      if advertises ep utt then Ok ep else Fatal noSuitableEndpoint []
  | None => Fatal noSuitableEndpoint []
  end.

(** func connectionOptions() []opcua.Option *)
Definition connectionOptions : list opcua.Option_ :=
  [opcua.Lifetime (10 * time.Minute);
   opcua.RequestTimeout (5 * time.Second);
   opcua.AutoReconnect true].

(** crt.Certificate[0] *)
Definition firstCertificate (crt : tls.Certificate_) : outcome (list Byte.byte) :=
  match tls.Certificate crt with
  | cert :: _ => Ok cert
  | [] => Panic "index out of range [0] with length 0"
  end.

(** func authenticationOptions(c config.ServerConfig, l log.Logger,
    e *ua.EndpointDescription, crt *tls.Certificate) []opcua.Option *)
Definition authenticationOptions (c : ServerConfig) (e : EndpointDescription)
    (crt : tls.Certificate_) : outcome (list opcua.Option_) :=
  o <- (if String.eqb (AuthMode c) "Certificate" then
          cert <- firstCertificate crt;; Ok [opcua.AuthCertificate cert]
        else if String.eqb (AuthMode c) "UserName" then
          Ok [opcua.AuthUsername (Username c) (Password c)]
        else Ok [opcua.AuthAnonymous]);;
  utt <- UserTokenTypeFromString (AuthMode c);;
  Ok (o ++ [opcua.SecurityFromEndpoint e utt])%list.

(** The type assertion of crt.PrivateKey to an RSA private key, written
    without the comma-ok form. *)
Definition rsaKey (crt : tls.Certificate_) : outcome (list Byte.byte) :=
  match tls.PrivateKey crt with
  | tls.rsaPrivateKey der => Ok der
  | _ => Panic "interface conversion: interface is not *rsa.PrivateKey"
  end.

(** func securityOptions(c config.ServerConfig, l log.Logger,
    e *ua.EndpointDescription, crt *tls.Certificate) []opcua.Option *)
Definition securityOptions (c : ServerConfig) (e : EndpointDescription)
    (crt : tls.Certificate_) : outcome (list opcua.Option_) :=
  if String.eqb (SecMode c) "Sign" || String.eqb (SecMode c) "SignAndEncrypt" then
    key <- rsaKey crt;;
    cert <- firstCertificate crt;;
    Ok [opcua.PrivateKey key; opcua.Certificate cert]
  else Ok [].

(** func loadCertificate(c config.ServerConfig, l log.Logger) tls.Certificate *)
Definition loadCertificate (c : ServerConfig) : outcome tls.Certificate_ :=
  if negb (String.eqb (CertPath c) "") && negb (String.eqb (KeyPath c) "") then
    match LoadX509KeyPair (CertPath c) (KeyPath c) with
    | inr err => Fatal "failed to load certificate: %s" [argError err]
    | inl crt =>
        match tls.PrivateKey crt with
        | tls.rsaPrivateKey _ => Ok crt
        | _ => Fatal "invalid private key" []
        end
    end
  else Ok tls.zero.

(** func NewClientFromServerConfig(c config.ServerConfig, l log.Logger) *opcua.Client *)
Definition NewClientFromServerConfig (c : ServerConfig) : outcome opcua.Client :=
  e <- findEndpoint c;;
  crt <- loadCertificate c;;
  a <- authenticationOptions c e crt;;
  s <- securityOptions c e crt;;
  Ok (opcua.NewClient (Endpoint c) (connectionOptions ++ a ++ s)%list).

End Client.
End client.

(** ** Package log *)

Module log.

Definition Debug : Z := 0.
Definition Info : Z := 1.
Definition Warn : Z := 2.
Definition Err : Z := 3.
Definition Fatal_ : Z := 4.

Record LoggerConfiguration : Type := {
  Prefix : string;
  Verbosity : Z
}.

(** A log.Logger is the jsonlog logger over its configuration; what it
    prints is not part of the model. *)
Definition Logger : Type := LoggerConfiguration.

(** func GetVerbosityFromString(verbosity string) int *)
Definition GetVerbosityFromString (verbosity : string) : Z :=
  if String.eqb verbosity "debug" then Debug
  else if String.eqb verbosity "info" then Info
  else if String.eqb verbosity "warn" then Warn
  else if String.eqb verbosity "err" then Err
  else if String.eqb verbosity "fatal" then Fatal_
  else Warn.

End log.

(** ** Package jsonlog *)

Module jsonlog.

(** Where a call on the logger writes its line. *)
Inductive stream : Type := Stdout | Stderr.

(** func NewLogger(cfg *log.LoggerConfiguration) log.Logger *)
Definition NewLogger (cfg : log.LoggerConfiguration) : log.Logger := cfg.

(** func (l *logger) SetVerbosity(Verbosity string) *)
Definition SetVerbosity (l : log.Logger) (Verbosity : string) : log.Logger :=
  {| log.Prefix := log.Prefix l;
     log.Verbosity := log.GetVerbosityFromString Verbosity |}.

(** func (l *logger) Debug(fmt string, v ...interface{}): the stream the line
    goes to, if it is written. *)
Definition Debug (l : log.Logger) : option stream :=
  if log.Verbosity l <=? log.Debug then Some Stdout else None.

(** func (l *logger) Info(fmt string, v ...interface{}) *)
Definition Info (l : log.Logger) : option stream :=
  if log.Verbosity l <=? log.Info then Some Stdout else None.

(** func (l *logger) Warn(fmt string, v ...interface{}) *)
Definition Warn (l : log.Logger) : option stream :=
  if log.Verbosity l <=? log.Warn then Some Stdout else None.

(** func (l *logger) Err(fmt string, v ...interface{}) *)
Definition Err (l : log.Logger) : option stream :=
  if log.Verbosity l <=? log.Err then Some Stderr else None.

(** func (l *logger) Fatal(fmt string, v ...interface{}): the line is
    written whatever the verbosity, and the process exits. *)
Definition Fatal (l : log.Logger) : option stream := Some Stderr.

End jsonlog.

(** ** Package collector *)

Module collector.
Import prometheus.

Section Collector.
Context {carriers : Carriers} {ext : Externals}.

Record CollectorConfig : Type := {
  Config : config.Config;
  CollectorConfig_Logger : log.Logger
}.

Record metricProperties : Type := {
  desc : Desc;
  typ : ValueType;
  labels : gmap string string;
  labelsKeys : list string;
  labelsValues : list string
}.

Record metric : Type := {
  name : string;
  properties : metricProperties
}.

Record opcuaMetric : Type := {
  metric_ : metric;   (* the embedded *metric *)
  nodeID : string;
  nodeReadValueID : ReadValueID
}.

Record Collector : Type := {
  Logger : log.Logger;
  ServerConfig : config.ServerConfig;
  opcuaClient : opcua.Client;
  opcuaMetricsCache : list opcuaMetric;
  statsMetricsCache : list metric;
  errorDesc : Desc
}.

(** func getMetricValueType(metricType string) prometheus.ValueType *)
Definition getMetricValueType (metricType : string) : ValueType :=
  if String.eqb metricType "counter" then CounterValue
  else if String.eqb metricType "gauge" then GaugeValue
  else if String.eqb metricType "Float" || String.eqb metricType "Double" then GaugeValue
  else UntypedValue.

(** func newMetric(name string, help string, typ prometheus.ValueType,
    labels map[string]string) *metric *)
Definition newMetric (name help : string) (typ : ValueType)
    (labels : gmap string string) : metric :=
  let keys := (rangeMap labels).*1 in
  let values := (rangeMap labels).*2 in
  {| name := name;
     properties := {| desc := NewDesc name help keys;
                      typ := typ;
                      labels := labels;
                      labelsKeys := keys;
                      labelsValues := values |} |}.

(** The loop of loadMetricsCache over cfg.Metrics, [mm] being the slice built
    so far: the slice after the loop, or the error it returns with. *)
Fixpoint appendMetrics (ms : list config.Metric) (mm : list opcuaMetric)
  : list opcuaMetric + error :=
  match ms with
  | [] => inl mm
  | m :: rest =>
      match ParseNodeID (config.NodeID m) with
      | inr err => inr (errInvalidNodeID err)
      | inl uaNodeID =>
          appendMetrics rest
            (mm ++ [{| nodeID := config.NodeID m;
                       nodeReadValueID := {| ReadValueID_NodeID := uaNodeID |};
                       metric_ := newMetric (config.Name m) (config.Help m)
                                    (getMetricValueType (config.Type_ m))
                                    (config.Labels m) |}])
      end
  end.

Definition withCache (c : Collector) (mm : list opcuaMetric) : Collector :=
  {| Logger := Logger c;
     ServerConfig := ServerConfig c;
     opcuaClient := opcuaClient c;
     opcuaMetricsCache := mm;
     statsMetricsCache := statsMetricsCache c;
     errorDesc := errorDesc c |}.

(** func (c *Collector) loadMetricsCache(cfg *config.MetricsConfig) error:
    the collector after the call, and the error. *)
Definition loadMetricsCache (c : Collector) (cfg : config.MetricsConfig)
  : Collector * option error :=
  match appendMetrics (config.Metrics cfg) [] with
  | inr err => (c, Some err)
  | inl mm => (withCache c mm, None)
  end.

(** func (c *Collector) ReloadMetrics(cfg *config.MetricsConfig): it has no
    result, and drops the one of loadMetricsCache. *)
Definition ReloadMetrics (c : Collector) (cfg : config.MetricsConfig) : Collector :=
  (loadMetricsCache c cfg).1.

(** The instrumentation metrics that NewCollector appends to
    c.statsMetricsCache. *)
Definition statsMetrics : list metric :=
  [newMetric "opcua_scrape_walk_duration_seconds"
     "Time OPCUA walk/bulkwalk took." GaugeValue ∅;
   newMetric "opcua_scrape_resp_returned"
     "RESPs returned from walk." GaugeValue ∅;
   newMetric "opcua_scrape_duration_seconds"
     "Total OPCUA time scrape took (walk and processing)." GaugeValue ∅;
   newMetric "opcua_client_read_duration_seconds"
     "Time OPCUA to reconnect took." GaugeValue ∅].

(** func NewCollector(cfg *CollectorConfig), which returns the collector and
    an error that is nil on every return. [errorDesc], which the source sets last, is
    read by nothing before. *)
Definition NewCollector (cfg : CollectorConfig) : outcome Collector :=
  cl <- client.NewClientFromServerConfig (config.ServerConfig_ (Config cfg));;
  match Connect cl with
  | Some err => Fatal "cannot connect opcua client %v" [argError err]
  | None =>
      let c := {| Logger := CollectorConfig_Logger cfg;
                  ServerConfig := config.ServerConfig_ (Config cfg);
                  opcuaClient := cl;
                  opcuaMetricsCache := [];
                  statsMetricsCache := [];
                  errorDesc := NewDesc "opcua_error" "error scraping target" [] |} in
      let c := ReloadMetrics c (config.MetricsConfig_ (Config cfg)) in
      Ok {| Logger := Logger c;
            ServerConfig := ServerConfig c;
            opcuaClient := opcuaClient c;
            opcuaMetricsCache := opcuaMetricsCache c;
            statsMetricsCache := statsMetricsCache c ++ statsMetrics;
            errorDesc := errorDesc c |}
  end.

(** func (c Collector) Describe(ch chan<- *prometheus.Desc) *)
Definition Describe (c : Collector) : list Desc :=
  map (fun m => desc (properties (metric_ m))) (opcuaMetricsCache c) ++
  map (fun m => desc (properties m)) (statsMetricsCache c).

(** func (c Collector) getErrorMetric(m *metric, err error) prometheus.Metric *)
Definition getErrorMetric (c : Collector) (m : metric) (err : error) : Metric :=
  InvalidMetric (errorDesc c) (errForMetric (name m) (labels (properties m)) err).

(** prometheus.NewConstMetric(desc, valueType, value, labelValues...) *)
Definition NewConstMetric (d : Desc) (valueType : ValueType) (value : float64)
    (labelValues : list string) : Metric + error :=
  match constMetricError d labelValues with
  | Some err => inr err
  | None => inl (ConstMetric d valueType value labelValues)
  end.

(** func (c Collector) getMetricWithValue(m *metric, value float64) prometheus.Metric *)
Definition getMetricWithValue (c : Collector) (m : metric) (value : float64) : Metric :=
  match NewConstMetric (desc (properties m)) (typ (properties m)) value
          (labelsValues (properties m)) with
  | inr err => getErrorMetric c m err
  | inl sample => sample
  end.

(** The request that scrapeTarget builds. *)
Definition readRequest (c : Collector) : ReadRequest :=
  {| MaxAge := 2000;
     NodesToRead := map nodeReadValueID (opcuaMetricsCache c);
     TimestampsToReturn := TimestampsToReturnBoth |}.

(** func (c *Collector) scrapeTarget(), which returns the response, the
    duration of the read and an error.
    [read] is c.opcuaClient.Read in this round, [elapsed] what
    time.Since(start).Seconds() gives after it. *)
Definition scrapeTarget (c : Collector) (read : ReadRequest -> ReadResponse + error)
    (elapsed : float64) : ReadResponse * float64 + error :=
  match read (readRequest c) with
  | inr err => inr err
  | inl resp => inl (resp, elapsed)
  end.

(** func (c *Collector) getOpcuaValueFromIndex(opcuaResponse *ua.ReadResponse,
    idx int) (float64, error). Results[idx] panics out of range. *)
Definition getOpcuaValueFromIndex (opcuaResponse : ReadResponse) (idx : nat)
  : outcome (float64 + error) :=
  match Results opcuaResponse !! idx with
  | None => Panic "index out of range"
  | Some r =>
      if negb (Status r =? ua.StatusOK) then Ok (inr (errInvalidStatus (Status r)))
      else Ok (inl (Float (Value r)))
  end.

(** What the clock gives in one call of Collect, in seconds. *)
Record Clock : Type := {
  readDuration : float64;   (* time.Since(start) in scrapeTarget *)
  walkDuration : float64;   (* time.Since(start) after scrapeTarget *)
  scrapeDuration : float64  (* time.Since(start) in the second loop *)
}.

(** Collect, the first loop, from index [idx] on: the samples sent. *)
Fixpoint collectMetrics (c : Collector) (opcuaResponse : ReadResponse)
    (idx : nat) (cache : list opcuaMetric) : outcome (list Metric) :=
  match cache with
  | [] => Ok []
  | opcuaMetric :: rest =>
      r <- getOpcuaValueFromIndex opcuaResponse idx;;
      let sample := match r with
                    | inr err => getErrorMetric c (metric_ opcuaMetric) err
                    | inl value => getMetricWithValue c (metric_ opcuaMetric) value
                    end in
      sent <- collectMetrics c opcuaResponse (S idx) rest;;
      Ok (sample :: sent)
  end.

(** Collect, the switch of the second loop; [value] starts as zero. *)
Definition statsValue (m : metric) (clock : Clock) (opcuaResponse : ReadResponse)
  : float64 :=
  if String.eqb (name m) "opcua_client_read_duration_seconds" then readDuration clock
  else if String.eqb (name m) "opcua_scrape_walk_duration_seconds" then walkDuration clock
  else if String.eqb (name m) "opcua_scrape_resp_returned" then
    float64_of_int (Z.of_nat (length (Results opcuaResponse)))
  else if String.eqb (name m) "opcua_scrape_duration_seconds" then scrapeDuration clock
  else float64_of_int 0.

(** func (c Collector) Collect(ch chan<- prometheus.Metric): the samples sent
    on [ch], in order. *)
Definition Collect (c : Collector) (read : ReadRequest -> ReadResponse + error)
    (clock : Clock) : outcome (list Metric) :=
  match scrapeTarget c read (readDuration clock) with
  | inr err => Ok [InvalidMetric (errorDesc c) err]
  | inl (opcuaResponse, readDuration) =>
      sent <- collectMetrics c opcuaResponse 0 (opcuaMetricsCache c);;
      Ok (sent ++
          map (fun m => getMetricWithValue c m
                          (statsValue m
                             {| readDuration := readDuration;
                                walkDuration := walkDuration clock;
                                scrapeDuration := scrapeDuration clock |}
                             opcuaResponse))
            (statsMetricsCache c))%list
  end.

(** func fromMSSToSA(input map[string]string) (result []string): the
    variable of its [range] is the key. *)
Definition fromMSSToSA (input : gmap string string) : list string :=
  (rangeMap input).*1.

End Collector.
End collector.

(** ** Package main

    The reload path. The goroutine of reloadConfigOnChannel answers one
    request of sendReloadChannel at a time, and the sender waits for the
    answer: a call of sendReloadChannel is a call of sc.reloadConfig. The
    locks of SafeConfig guard single reads and writes of the pointer [sc.C]
    and are not part of the model. *)

Module main.

Section Main.
Context {carriers : Carriers} {ext : Externals} {yaml : config.Yaml}.

(** The files and the package variable [sc]: the one Config object that
    [sc.C] points to. *)
Record State : Type := {
  fs : gmap string file;
  sc : config.Config
}.

(** func (sc *SafeConfig) reloadConfig(configPath string) error.
    LoadMetricsConfig works on the object [sc.C] points to, so what it did to
    it stays when it returns an error, and SetConfig stores the pointer that
    is already there. *)
Definition reloadConfig (st : State) (configPath : string) : State * option error :=
  let '(c, err) := config.LoadMetricsConfig (sc st) (fs st) configPath in
  ({| fs := fs st; sc := c |}, err).

(** func sendReloadChannel() error *)
Definition sendReloadChannel (st : State) (configPath : string) : State * option error :=
  reloadConfig st configPath.

Record Request : Type := {
  Method : string;
  Body : list Byte.byte + error   (* what ioutil.ReadAll(r.Body) returns *)
}.

(** A call of http.Error(w, message, code); [cause] is the error that
    fmt.Sprintf put into the message, if any. *)
Record HttpError : Type := {
  message : string;
  cause : option error;
  code : Z
}.

(** A call on the registry, with the Collector value passed to it. *)
Inductive RegistryCall : Type :=
| Unregister (c : collector.Collector)
| Register (c : collector.Collector).

(** What one run of the handler leaves behind. *)
Record Served : Type := {
  state : State;
  metricsCollector : collector.Collector;
  httpErrors : list HttpError;
  registryCalls : list RegistryCall
}.

(** The handler that reloadConfigHandler(logger, metricsCollector,
    configPath, updateFromBody) returns, run on the request [r]. *)
Definition reloadConfigHandler (configPath : string) (updateFromBody : bool)
    (r : Request) (st : State) (metricsCollector : collector.Collector) : Served :=
  if String.eqb (Method r) "POST" then
    let written : State + HttpError :=
      if updateFromBody then
        match Body r with
        | inr err => inr {| message := "can't read body"; cause := None; code := 400 |}
        | inl body =>
            if negb (Nat.eqb (length body) 0) then
              inl {| fs := WriteFile (fs st) configPath body; sc := sc st |}
            else inl st
        end
      else inl st in
    match written with
    | inr e =>
        {| state := st; metricsCollector := metricsCollector;
           httpErrors := [e]; registryCalls := [] |}
    | inl st1 =>
        let '(st2, err) := sendReloadChannel st1 configPath in
        let errors :=
          match err with
          | Some e => [{| message := "failed to reload config: %s";
                          cause := Some e; code := 500 |}]
          | None => []
          end in
        let reloaded :=
          collector.ReloadMetrics metricsCollector (config.MetricsConfig_ (sc st2)) in
        {| state := st2; metricsCollector := reloaded;
           httpErrors := errors;
           registryCalls := [Unregister metricsCollector; Register reloaded] |}
    end
  else
    {| state := st; metricsCollector := metricsCollector;
       httpErrors := [{| message := "POST method expected"; cause := None; code := 400 |}];
       registryCalls := [] |}.

End Main.
End main.

(** ** The other text of packages client and collector

    src/client/client.go and src/collector/collector.go hold a second text of
    the two packages: a client written against a ServerConfig of string
    pointers, which returns errors where findEndpoint calls l.Fatal, and a
    collector without the instrumentation cache. The properties are settled
    on the text above, the one that the rest of the sources compiles with;
    this one is embedded to compare. *)

Module client_prev.
Import ua.

(** The ServerConfig these functions read: eight *string fields, here the
    strings they point to. The functions write through the pointers, so
    they give the record back as they leave it. *)
Record ServerConfig : Type := {
  Endpoint : string;
  CertFile : string;
  KeyFile : string;
  Policy : string;
  Mode : string;
  Auth : string;
  Username : string;
  Password : string
}.

Definition withPolicy (cfg : ServerConfig) (p : string) : ServerConfig :=
  {| Endpoint := Endpoint cfg; CertFile := CertFile cfg; KeyFile := KeyFile cfg;
     Policy := p; Mode := Mode cfg; Auth := Auth cfg;
     Username := Username cfg; Password := Password cfg |}.

Definition withMode (cfg : ServerConfig) (m : string) : ServerConfig :=
  {| Endpoint := Endpoint cfg; CertFile := CertFile cfg; KeyFile := KeyFile cfg;
     Policy := Policy cfg; Mode := m; Auth := Auth cfg;
     Username := Username cfg; Password := Password cfg |}.

Definition withAuth (cfg : ServerConfig) (a : string) : ServerConfig :=
  {| Endpoint := Endpoint cfg; CertFile := CertFile cfg; KeyFile := KeyFile cfg;
     Policy := Policy cfg; Mode := Mode cfg; Auth := a;
     Username := Username cfg; Password := Password cfg |}.

Section ClientPrev.
Context {carriers : Carriers} {ext : Externals}.

(** func validateEndpointConfig(endpoints []*ua.EndpointDescription,
    secPolicy string, secMode ua.MessageSecurityMode,
    authMode ua.UserTokenType) error *)
Definition validateEndpointConfig (endpoints : list EndpointDescription)
    (secPolicy : string) (secMode : Z) (authMode : Z) : option error :=
  if existsb
       (fun e => (SecurityMode e =? secMode) &&
                 String.eqb (SecurityPolicyURI e) secPolicy &&
                 existsb (fun t => TokenType t =? authMode) (UserIdentityTokens e))
       endpoints
  then None
  else Some (errorString "server does not support an.Endpoint with security : %s , %s").

(** clientSecurityOptions, the first switch: [secPolicy] and the
    configuration after it, or nothing at the default case. *)
Definition policySwitch (cfg : ServerConfig) : option (string * ServerConfig) :=
  if String.eqb (Policy cfg) "auto" then Some ("", cfg)
  else if HasPrefix (Policy cfg) SecurityPolicyURIPrefix then
    Some (Policy cfg, withPolicy cfg "")
  else if client.isPolicyName (Policy cfg) then
    Some (SecurityPolicyURIPrefix ++ Policy cfg, withPolicy cfg "")
  else None.

(** clientSecurityOptions, the second switch. *)
Definition modeSwitch (cfg : ServerConfig) : option (Z * ServerConfig) :=
  let lower := ToLower (Mode cfg) in
  if String.eqb lower "auto" then Some (MessageSecurityModeInvalid, cfg)
  else if String.eqb lower "none" then Some (MessageSecurityModeNone, withMode cfg "")
  else if String.eqb lower "sign" then Some (MessageSecurityModeSign, withMode cfg "")
  else if String.eqb lower "signandencrypt" then
    Some (MessageSecurityModeSignAndEncrypt, withMode cfg "")
  else None.

(** clientSecurityOptions, the third switch: [serverEndpoint] after it. *)
Definition bestEndpoint (cfg : ServerConfig) (secMode : Z) (secPolicy : string)
    (endpoints : list EndpointDescription) : option EndpointDescription :=
  if String.eqb (Mode cfg) "auto" && String.eqb (Policy cfg) "auto" then
    client.scan (fun _ => true) client.modeAndLevelGe endpoints
  else if negb (String.eqb (Mode cfg) "auto") && String.eqb (Policy cfg) "auto" then
    client.scan (fun e => SecurityMode e =? secMode) client.levelGe endpoints
  else if String.eqb (Mode cfg) "auto" && negb (String.eqb (Policy cfg) "auto") then
    client.scan (fun e => String.eqb (SecurityPolicyURI e) secPolicy)
      client.levelGe endpoints
  else
    client.scan (fun e => String.eqb (SecurityPolicyURI e) secPolicy &&
                          (SecurityMode e =? secMode))
      client.levelGe endpoints.

(** func clientSecurityOptions(cfg config.ServerConfig, logger log.Logger),
    which returns the options and an error: here with the configuration as
    it leaves it. In [if validateEndpointConfig(...); err != nil] the call is
    the statement before the condition and its result is dropped; [err] is
    the error of GetEndpoints, nil at that point. *)
Definition clientSecurityOptions (cfg : ServerConfig)
  : outcome (ServerConfig * (list opcua.Option_ + error)) :=
  let savePolicy := Policy cfg in
  match GetEndpoints (Endpoint cfg) with
  | inr err => Ok (cfg, inr err)
  | inl endpoints =>
      authMode <- UserTokenTypeFromString (Auth cfg);;
      match policySwitch cfg with
      | None => Ok (cfg, inr (errorString "invalid security.Policy: %s"))
      | Some (secPolicy, cfg) =>
          match modeSwitch cfg with
          | None => Ok (cfg, inr (errorString "invalid security.Mode: %s"))
          | Some (secMode, cfg) =>
              let '(secMode, secPolicy) := client.noneForBoth secMode secPolicy in
              let serverEndpoint := bestEndpoint cfg secMode secPolicy endpoints in
              let cfg := withPolicy cfg savePolicy in
              match serverEndpoint with
              | None =>
                  Ok (cfg, inr (errorString
                    "unable to find suitable server.Endpoint with selected sec.Policy and sec.Mode"))
              | Some serverEndpoint =>
                  let _ := validateEndpointConfig endpoints
                             (SecurityPolicyURI serverEndpoint)
                             (SecurityMode serverEndpoint) authMode in
                  Ok (cfg, inl [opcua.SecurityFromEndpoint serverEndpoint authMode])
              end
          end
      end
  end.

(** func certificateOptions(certfile, keyfile string, logger log.Logger) []opcua.Option *)
Definition certificateOptions (fs : gmap string file) (certfile keyfile : string)
  : list opcua.Option_ :=
  (if negb (String.eqb keyfile "") then [opcua.PrivateKeyFile keyfile] else []) ++
  (if negb (String.eqb certfile "") then
     [opcua.Certificate match ReadFile fs certfile with
                        | inl cert => cert
                        | inr _ => []
                        end]
   else []).

(** func getClientWithOptions(cfg config.ServerConfig, opts []opcua.Option,
    logger log.Logger) *opcua.Client. The errors of clientSecurityOptions
    and of Connect are logged and the client is returned. *)
Definition getClientWithOptions (cfg : ServerConfig) (opts : list opcua.Option_)
  : outcome (ServerConfig * opcua.Client) :=
  r <- clientSecurityOptions cfg;;
  let '(cfg, clientSecurityOpts) := r in
  let security := match clientSecurityOpts with
                  | inl o => o
                  | inr _ => []
                  end in
  Ok (cfg,
      opcua.NewClient (Endpoint cfg)
        (opts ++ security ++
         [opcua.Lifetime (10 * time.Minute);
          opcua.RequestTimeout (5 * time.Second);
          opcua.AutoReconnect true])%list).

(** func NewClientFromServerConfig(cfg config.ServerConfig, logger log.Logger) *opcua.Client *)
Definition NewClientFromServerConfig (fs : gmap string file) (cfg : ServerConfig)
  : outcome (ServerConfig * opcua.Client) :=
  if String.eqb (Auth cfg) "Certificate" then
    getClientWithOptions cfg (certificateOptions fs (CertFile cfg) (KeyFile cfg))
  else if String.eqb (Auth cfg) "UserName" then
    getClientWithOptions cfg [opcua.AuthUsername (Username cfg) (Password cfg)]
  else
    getClientWithOptions (withAuth cfg "Anonymous") [opcua.AuthAnonymous].

End ClientPrev.
End client_prev.

Module collector_prev.
Import prometheus.

Section CollectorPrev.
Context {carriers : Carriers} {ext : Externals}.

Record metric : Type := {
  name : string;
  labels : gmap string string;
  labelsKeys : list string;
  labelsValues : list string;
  nodeID : string;
  nodeReadValueID : ReadValueID;
  promDesc : Desc;
  typ : ValueType
}.

Record Collector : Type := {
  Logger : log.Logger;
  ServerConfig : config.ServerConfig;
  opcuaClient : opcua.Client;
  metricsCache : list metric
}.

(** The loop of loadMetricsCache, [result] being the slice built so far. *)
Fixpoint appendMetrics (ms : list config.Metric) (result : list metric)
  : list metric + error :=
  match ms with
  | [] => inl result
  | m :: rest =>
      match ParseNodeID (config.NodeID m) with
      | inr err => inr (errInvalidNodeID err)
      | inl uaNodeID =>
          let keys := (rangeMap (config.Labels m)).*1 in
          let values := (rangeMap (config.Labels m)).*2 in
          appendMetrics rest
            (result ++ [{| name := config.Name m;
                           labels := config.Labels m;
                           labelsKeys := keys;
                           labelsValues := values;
                           nodeID := config.NodeID m;
                           nodeReadValueID := {| ReadValueID_NodeID := uaNodeID |};
                           promDesc := NewDesc (config.Name m) (config.Help m) keys;
                           typ := collector.getMetricValueType (config.Type_ m) |}])
      end
  end.

(** func (c *Collector) loadMetricsCache(cfg *config.MetricsConfig) error *)
Definition loadMetricsCache (c : Collector) (cfg : config.MetricsConfig)
  : Collector * option error :=
  match appendMetrics (config.Metrics cfg) [] with
  | inr err => (c, Some err)
  | inl result =>
      ({| Logger := Logger c; ServerConfig := ServerConfig c;
          opcuaClient := opcuaClient c; metricsCache := result |}, None)
  end.

(** func (c *Collector) ReloadMetrics(cfg *config.MetricsConfig) *)
Definition ReloadMetrics (c : Collector) (cfg : config.MetricsConfig) : Collector :=
  (loadMetricsCache c cfg).1.

(** func (c Collector) Describe(ch chan<- *prometheus.Desc) *)
Definition Describe (c : Collector) : list Desc :=
  map promDesc (metricsCache c).

(** prometheus.MustNewConstMetric, which panics where NewConstMetric returns
    an error. *)
Definition MustNewConstMetric (d : Desc) (valueType : ValueType) (value : float64)
    (labelValues : list string) : outcome Metric :=
  match collector.NewConstMetric d valueType value labelValues with
  | inl sample => Ok sample
  | inr _ => Panic "MustNewConstMetric"
  end.

(** The descriptor of the error samples of opcuaToPrometheusMetrics. *)
Definition errorDesc : Desc := NewDesc "opcua_error" "Error calling NewConstMetric" [].

(** opcuaToPrometheusMetrics, the body of the loop for the entry [m] and the
    result at its index. *)
Definition sampleFor (m : metric) (opcuaResult : DataValue) : Metric :=
  if negb (Status opcuaResult =? ua.StatusOK) then
    InvalidMetric errorDesc (errMetricStatus (name m) (labels m) (Status opcuaResult))
  else
    match collector.NewConstMetric (promDesc m) (typ m) (Float (Value opcuaResult))
            (labelsValues m) with
    | inl sample => sample
    | inr err => InvalidMetric errorDesc (errMetricCause (name m) (labels m) err)
    end.

(** opcuaToPrometheusMetrics, the loop from index [idx] on. *)
Fixpoint samplesFrom (opcuaResponse : ReadResponse) (idx : nat)
    (cache : list metric) : outcome (list Metric) :=
  match cache with
  | [] => Ok []
  | m :: rest =>
      match Results opcuaResponse !! idx with
      | None => Panic "index out of range"
      | Some opcuaResult =>
          samples <- samplesFrom opcuaResponse (S idx) rest;;
          Ok (sampleFor m opcuaResult :: samples)
      end
  end.

(** func (c *Collector) opcuaToPrometheusMetrics(opcuaResponse *ua.ReadResponse)
    []prometheus.Metric *)
Definition opcuaToPrometheusMetrics (c : Collector) (opcuaResponse : ReadResponse)
  : outcome (list Metric) :=
  samplesFrom opcuaResponse 0 (metricsCache c).

(** The request that scrapeTarget builds. *)
Definition readRequest (c : Collector) : ReadRequest :=
  {| MaxAge := 2000;
     NodesToRead := map nodeReadValueID (metricsCache c);
     TimestampsToReturn := TimestampsToReturnBoth |}.

(** func (c *Collector) scrapeTarget(), which returns the response, the
    sample of the read duration and an error. *)
Definition scrapeTarget (c : Collector) (read : ReadRequest -> ReadResponse + error)
    (elapsed : float64) : outcome (ReadResponse * list Metric + error) :=
  match read (readRequest c) with
  | inr err => Ok (inr err)
  | inl resp =>
      sample <- MustNewConstMetric
                  (NewDesc "opcua_client_read_duration_seconds"
                     "Time OPCUA to reconnect took." [])
                  GaugeValue elapsed [];;
      Ok (inl (resp, [sample]))
  end.

(** func (c Collector) Collect(ch chan<- prometheus.Metric): the samples
    sent, in order. *)
Definition Collect (c : Collector) (read : ReadRequest -> ReadResponse + error)
    (clock : collector.Clock) : outcome (list Metric) :=
  scraped <- scrapeTarget c read (collector.readDuration clock);;
  match scraped with
  | inr err => Ok [InvalidMetric (NewDesc "opcua_error" "Error scraping target" []) err]
  | inl (opcuaResponse, promMetrics) =>
      walk <- MustNewConstMetric
                (NewDesc "opcua_scrape_walk_duration_seconds"
                   "Time OPCUA walk/bulkwalk took." [])
                GaugeValue (collector.walkDuration clock) [];;
      returned <- MustNewConstMetric
                    (NewDesc "opcua_scrape_resp_returned" "RESPs returned from walk." [])
                    GaugeValue
                    (float64_of_int (Z.of_nat (length (Results opcuaResponse)))) [];;
      samples <- opcuaToPrometheusMetrics c opcuaResponse;;
      total <- MustNewConstMetric
                 (NewDesc "opcua_scrape_duration_seconds"
                    "Total OPCUA time scrape took (walk and processing)." [])
                 GaugeValue (collector.scrapeDuration clock) [];;
      Ok (promMetrics ++ [walk; returned] ++ samples ++ [total])%list
  end.

End CollectorPrev.
End collector_prev.

(** ** A small world to run the model in

    Instances of the outside, used where a property is shown at a concrete
    input: node identifiers, values and floats are strings and integers;
    [ToLower] lowers ASCII letters; the metric constructor applies three
    checks of client_golang: no label name with the reserved prefix, as many
    label values as label names, and no label value with the byte 255, which
    no UTF-8 text has. *)

Module world.

#[local] Instance carriers : Carriers :=
  {| NodeID := string; Variant := Z; float64 := Z |}.

Definition lowerAscii (a : Ascii.ascii) : Ascii.ascii :=
  let n := Ascii.nat_of_ascii a in
  if Nat.leb 65 n && Nat.leb n 90 then Ascii.ascii_of_nat (n + 32) else a.

Fixpoint lower (s : string) : string :=
  match s with
  | EmptyString => EmptyString
  | String a s' => String (lowerAscii a) (lower s')
  end.

Definition tokenType (s : string) : outcome Z :=
  let l := lower s in
  if String.eqb l "anonymous" then Ok ua.UserTokenTypeAnonymous
  else if String.eqb l "username" then Ok ua.UserTokenTypeUserName
  else if String.eqb l "certificate" then Ok ua.UserTokenTypeCertificate
  else if String.eqb l "issuedtoken" then Ok ua.UserTokenTypeIssuedToken
  else Panic "unknown UserTokenType".

Definition parseNodeID (s : string) : string + error :=
  if HasPrefix s "ns=" || HasPrefix s "i=" || HasPrefix s "s=" then inl s
  else inr (errorString "invalid node id").

(** A string of the one byte 255. *)
Definition byte255 : string := String (Ascii.ascii_of_nat 255) EmptyString.

Definition constMetricCheck (d : prometheus.Desc) (labelValues : list string)
  : option error :=
  if existsb (fun l => HasPrefix l "__") (prometheus.variableLabels d) then
    Some (errorString "not a valid label name")
  else if negb (Nat.eqb (length labelValues) (length (prometheus.variableLabels d))) then
    Some (errorString "inconsistent label cardinality")
  else if existsb (fun v => Contains v byte255) labelValues then
    Some (errorString "label value is not valid UTF-8")
  else None.

(** The endpoints a server of the examples advertises. *)
Definition tokens (types : list Z) : list ua.UserTokenPolicy :=
  map (fun t => {| ua.PolicyID := ""; ua.TokenType := t |}) types.

Definition endpointOf (url : string) (mode : Z) (policy : string) (level : Z)
    (types : list Z) : ua.EndpointDescription :=
  {| ua.EndpointURL := url;
     ua.SecurityMode := mode;
     ua.SecurityPolicyURI := policy;
     ua.UserIdentityTokens := tokens types;
     ua.SecurityLevel := level |}.

Definition policyBasic256Sha256 : string :=
  "http://opcfoundation.org/UA/SecurityPolicy#Basic256Sha256".

(** The list of the specification's example: Sign at level 1, Sign at level
    3, None at level 9. *)
Definition sign1 : ua.EndpointDescription :=
  endpointOf "opc.tcp://example/1" ua.MessageSecurityModeSign policyBasic256Sha256 1
    [ua.UserTokenTypeAnonymous].
Definition sign3 : ua.EndpointDescription :=
  endpointOf "opc.tcp://example/3" ua.MessageSecurityModeSign policyBasic256Sha256 3
    [ua.UserTokenTypeAnonymous].
Definition none9 : ua.EndpointDescription :=
  endpointOf "opc.tcp://example/9" ua.MessageSecurityModeNone ua.SecurityPolicyURINone 9
    [ua.UserTokenTypeAnonymous].

(** Two endpoints with the same mode and level. *)
Definition twinA : ua.EndpointDescription :=
  endpointOf "opc.tcp://twins/a" ua.MessageSecurityModeSign policyBasic256Sha256 1
    [ua.UserTokenTypeAnonymous].
Definition twinB : ua.EndpointDescription :=
  endpointOf "opc.tcp://twins/b" ua.MessageSecurityModeSign policyBasic256Sha256 1
    [ua.UserTokenTypeAnonymous].

(** Two endpoints of one policy and one level: sign-and-encrypt, then sign. *)
Definition encrypted1 : ua.EndpointDescription :=
  endpointOf "opc.tcp://mixed/encrypt" ua.MessageSecurityModeSignAndEncrypt
    policyBasic256Sha256 1 [ua.UserTokenTypeAnonymous].
Definition signed1 : ua.EndpointDescription :=
  endpointOf "opc.tcp://mixed/sign" ua.MessageSecurityModeSign
    policyBasic256Sha256 1 [ua.UserTokenTypeAnonymous].

(** Endpoints by the server's address: the server at "opc.tcp://plain"
    offers one endpoint without security that takes user names; the one at
    "opc.tcp://strict" a signed one for certificates only and a plain one for
    anonymous users and user names. *)
Definition discover (url : string) : list ua.EndpointDescription + error :=
  if String.eqb url "opc.tcp://example" then inl [sign1; sign3; none9]
  else if String.eqb url "opc.tcp://twins" then inl [twinA; twinB]
  else if String.eqb url "opc.tcp://mixed" then inl [encrypted1; signed1]
  else if String.eqb url "opc.tcp://plain" then
    inl [endpointOf "opc.tcp://plain" ua.MessageSecurityModeNone
           ua.SecurityPolicyURINone 0
           [ua.UserTokenTypeAnonymous; ua.UserTokenTypeUserName]]
  else if String.eqb url "opc.tcp://strict" then
    inl [endpointOf "opc.tcp://strict/none" ua.MessageSecurityModeNone
           ua.SecurityPolicyURINone 0
           [ua.UserTokenTypeAnonymous; ua.UserTokenTypeUserName];
         endpointOf "opc.tcp://strict/sign" ua.MessageSecurityModeSign
           policyBasic256Sha256 2 [ua.UserTokenTypeCertificate]]
  else inr (errorString "no such host").

#[local] Instance ext : Externals :=
  {| ToLower := lower;
     rangeMap := map_to_list;
     GetEndpoints := discover;
     UserTokenTypeFromString := tokenType;
     LoadX509KeyPair := fun _ _ => inr (errorString "open: no such file or directory");
     Connect := fun _ => None;
     ParseNodeID := parseNodeID;
     Float := fun v => v;
     float64_of_int := fun n => n;
     constMetricError := constMetricCheck |}.

Definition metricOf (name nodeid : string) (labels : gmap string string)
  : config.Metric :=
  {| config.Name := name; config.Help := "help"; config.NodeID := nodeid;
     config.Labels := labels; config.Type_ := "gauge" |}.

(** A decoder that knows three documents, by their first byte. *)
Definition decode (content : list Byte.byte) (mm : config.MetricsConfig)
  : config.MetricsConfig * option error :=
  match content with
  | Byte.x61 :: _ =>   (* two metrics *)
      ({| config.Metrics := [metricOf "temperature" "ns=2;i=10853" ∅;
                             metricOf "pressure" "ns=2;i=10852" ∅] |}, None)
  | Byte.x62 :: _ =>   (* one metric, with a node identifier that does not parse *)
      ({| config.Metrics := [metricOf "temperature" "10853" ∅] |}, None)
  | Byte.x63 :: _ =>   (* an empty list of metrics *)
      ({| config.Metrics := [] |}, None)
  | _ => (mm, Some (errorString "yaml: unmarshal errors"))
  end.

#[local] Instance yaml : config.Yaml := {| config.Unmarshal := decode |}.

(** The same outside with a certificate and an RSA key behind every pair of
    paths. *)
Definition keyPair : tls.Certificate_ :=
  {| tls.Certificate := [[Byte.x30; Byte.x82]];
     tls.PrivateKey := tls.rsaPrivateKey [Byte.x30; Byte.x82] |}.

Definition extWithKeys : Externals :=
  {| ToLower := lower;
     rangeMap := map_to_list;
     GetEndpoints := discover;
     UserTokenTypeFromString := tokenType;
     LoadX509KeyPair := fun _ _ => inl keyPair;
     Connect := fun _ => None;
     ParseNodeID := parseNodeID;
     Float := fun v => v;
     float64_of_int := fun n => n;
     constMetricError := constMetricCheck |}.

Definition logger : log.Logger := {| log.Prefix := ""; log.Verbosity := log.Warn |}.

Definition server (url auth user : string) : config.ServerConfig :=
  {| config.Endpoint := url; config.CertPath := ""; config.KeyPath := "";
     config.SecPolicy := "None"; config.SecMode := "auto";
     config.AuthMode := auth; config.Username := user; config.Password := "" |}.

(** An anonymous client of the server at [url] with the given -sec-mode and
    -sec-policy. *)
Definition secured (url mode policy : string) : config.ServerConfig :=
  {| config.Endpoint := url; config.CertPath := ""; config.KeyPath := "";
     config.SecPolicy := policy; config.SecMode := mode;
     config.AuthMode := "Anonymous"; config.Username := ""; config.Password := "" |}.

(** A collector as NewCollector leaves it for the server at
    "opc.tcp://plain" and an empty list of metrics. *)
Definition emptyCollector : collector.Collector :=
  {| collector.Logger := logger;
     collector.ServerConfig := server "opc.tcp://plain" "Anonymous" "";
     collector.opcuaClient := opcua.NewClient "opc.tcp://plain" [];
     collector.opcuaMetricsCache := [];
     collector.statsMetricsCache := collector.statsMetrics;
     collector.errorDesc := prometheus.NewDesc "opcua_error" "error scraping target" [] |}.

Definition twoMetrics : config.MetricsConfig :=
  {| config.Metrics := [metricOf "temperature" "ns=2;i=10853" ∅;
                        metricOf "pressure" "ns=2;i=10852" ∅] |}.

(** The state after a start with the two-metric document in "opcua.yaml",
    whose content has since been replaced by the document with a node
    identifier that does not parse; and the collector of that start. *)
Definition serverConfig : config.ServerConfig := server "opc.tcp://plain" "Anonymous" "".

Definition loadedState : main.State :=
  {| main.fs := {[ "opcua.yaml" := readable [Byte.x62] ]};
     main.sc := {| config.ServerConfig_ := serverConfig;
                   config.MetricsConfig_ := twoMetrics |} |}.

Definition loadedCollector : collector.Collector :=
  collector.ReloadMetrics emptyCollector twoMetrics.

Definition post : main.Request :=
  {| main.Method := "POST"; main.Body := inl [] |}.

(** A collector whose one metric has a label value that is not UTF-8 text
    (in the configuration file, a value tagged !!binary). *)
Definition binaryLabel : config.MetricsConfig :=
  {| config.Metrics :=
       [metricOf "temperature" "ns=2;i=10853" {[ "site" := byte255 ]}] |}.

Definition binaryLabelCollector : collector.Collector :=
  collector.ReloadMetrics emptyCollector binaryLabel.

(** A session that answers every read with [results]. *)
Definition answering (results : list DataValue) : ReadRequest -> ReadResponse + error :=
  fun _ => inl {| Results := results |}.

Definition good (v : Z) : DataValue := {| Value := v; Status := ua.StatusOK |}.

(** ua.StatusBadNodeIDUnknown *)
Definition bad : DataValue := {| Value := 0; Status := 0x80340000 |}.

Definition clock : collector.Clock :=
  {| collector.readDuration := 1; collector.walkDuration := 2;
     collector.scrapeDuration := 3 |}.

End world.

#[local] Existing Instances world.carriers world.ext world.yaml.

(** * The vocabulary of the properties *)

Local Open Scope list_scope.

Section CacheVocabulary.
Context {carriers : Carriers} {ext : Externals}.
Import collector.

(** The cache entry that loadMetricsCache builds from the configuration
    entry [m], whose node identifier parsed to [id]. *)
Definition entryOf (m : config.Metric) (id : NodeID) : opcuaMetric :=
  {| nodeID := config.NodeID m;
     nodeReadValueID := {| ReadValueID_NodeID := id |};
     metric_ := newMetric (config.Name m) (config.Help m)
                  (getMetricValueType (config.Type_ m)) (config.Labels m) |}.

(** [e] is the entry built from [m]. *)
Definition builtFrom (m : config.Metric) (e : opcuaMetric) : Prop :=
  exists id, ParseNodeID (config.NodeID m) = inl id /\ e = entryOf m id.

Definition parses (m : config.Metric) : Prop :=
  exists id, ParseNodeID (config.NodeID m) = inl id.

Definition incomplete (m : config.Metric) : Prop :=
  config.Name m = "" \/ config.Help m = "" \/ config.NodeID m = "" \/ config.Type_ m = "".

End CacheVocabulary.

Section ReloadVocabulary.
Context {carriers : Carriers} {ext : Externals}.
Import collector.

(** [c'] differs from [c] in the metric cache at most. *)
Definition sameButCache (c c' : Collector) : Prop :=
  Logger c' = Logger c /\
  ServerConfig c' = ServerConfig c /\
  opcuaClient c' = opcuaClient c /\
  statsMetricsCache c' = statsMetricsCache c /\
  errorDesc c' = errorDesc c.

(** The Collector value passed in a call on the registry. *)
Definition passed (call : main.RegistryCall) : Collector :=
  match call with
  | main.Unregister c => c
  | main.Register c => c
  end.

End ReloadVocabulary.

Section PollVocabulary.
Context {carriers : Carriers} {ext : Externals}.
Import collector.

Definition isError (s : Metric) : bool :=
  match s with InvalidMetric _ _ => true | ConstMetric _ _ _ _ => false end.

Definition isNormal (s : Metric) : bool := negb (isError s).

Definition isGood (r : DataValue) : bool := Status r =? ua.StatusOK.

Definition count {A : Type} (f : A -> bool) (l : list A) : nat :=
  length (List.filter f l).

(** The metric constructor accepts what the cache entry [m] gives it. *)
Definition accepted (m : opcuaMetric) : Prop :=
  constMetricError (desc (properties (metric_ m)))
    (labelsValues (properties (metric_ m))) = None.

(** The sample for the cache entry [m] and the result [r]: an error sample
    with the status, the metric's name and its labels when the status is not
    Good; for a Good status the normal sample of the entry's descriptor, kind
    and label values with the result's value, or, when the metric constructor
    refuses these, an error sample with its error, the name and the labels. *)
Definition sampleOf (c : Collector) (m : opcuaMetric) (r : DataValue) : Metric :=
  let p := properties (metric_ m) in
  if isGood r then
    match constMetricError (desc p) (labelsValues p) with
    | None => ConstMetric (desc p) (typ p) (Float (Value r)) (labelsValues p)
    | Some err => InvalidMetric (errorDesc c) (errForMetric (name (metric_ m)) (labels p) err)
    end
  else
    InvalidMetric (errorDesc c)
      (errForMetric (name (metric_ m)) (labels p) (errInvalidStatus (Status r))).

(** The samples of the first loop of Collect, entry by entry. *)
Definition perMetricSamples (c : Collector) (resp : ReadResponse) : list Metric :=
  zip_with (sampleOf c) (opcuaMetricsCache c) (Results resp).

(** The samples of the second loop of Collect. *)
Definition instrumentationSamples (c : Collector) (clock : Clock)
    (resp : ReadResponse) : list Metric :=
  map (fun m => getMetricWithValue c m (statsValue m clock resp)) (statsMetricsCache c).

(** C4 in the words of the specification, for one collector and one round:
    with as many results as entries, the per-metric samples are as many, and
    the one at the position of a Good result is a normal sample, the one at
    the position of any other result an error sample. *)
Definition pollRoundAsSpecified (c : Collector)
    (read : ReadRequest -> ReadResponse + error) (clock : Clock) : Prop :=
  forall resp : ReadResponse,
    read (readRequest c) = inl resp ->
    length (Results resp) = length (opcuaMetricsCache c) ->
    exists perMetric instrumentation,
      Collect c read clock = Ok (perMetric ++ instrumentation) /\
      length perMetric = length (opcuaMetricsCache c) /\
      forall (i : nat) (r : DataValue),
        Results resp !! i = Some r ->
        exists s, perMetric !! i = Some s /\
                  if isGood r then isNormal s = true else isError s = true.

End PollVocabulary.

Section LoadVocabulary.
Context {yaml : config.Yaml}.

(** C10 in the words of the claim, for one Config object: with the file
    missing, the load succeeds and the metrics configuration is empty after
    it. *)
Definition missingFileLeavesEmpty (c : config.Config) (fs : gmap string file)
    (filename : string) : Prop :=
  fs !! filename = None ->
  exists c', config.LoadMetricsConfig c fs filename = (c', None) /\
             config.Metrics (config.MetricsConfig_ c') = [].

End LoadVocabulary.

Section ScanVocabulary.
Import ua client.
Variable keep : EndpointDescription -> bool.
Variable better : EndpointDescription -> EndpointDescription -> bool.

(** What the loop has in [ep] after the endpoints [ee]: nothing when none
    passed [keep]; else an endpoint of [ee] that passed, that no later one
    which passed is [better] than, and that is [better] than every one that
    is [better] than it. *)
Definition scanned (ee : list EndpointDescription)
    (r : option EndpointDescription) : Prop :=
  match r with
  | None => forall e, e ∈ ee -> keep e = false
  | Some ep =>
      exists l1 l2,
        ee = l1 ++ ep :: l2 /\
        keep ep = true /\
        (forall e, e ∈ l2 -> keep e = true -> better e ep = false) /\
        (forall e, e ∈ l1 -> keep e = true -> better e ep = true -> better ep e = true)
  end.

End ScanVocabulary.

Section SelectionVocabulary.
Import config ua client.

Definition bothAuto (c : ServerConfig) : bool :=
  String.eqb (SecMode c) "auto" && String.eqb (SecPolicy c) "auto".

(** The comparison with the incumbent in the case of the third switch that
    [c] selects: mode and level, each greater or equal, when neither mode nor
    policy is constrained; the level alone in the other three. *)
Definition comparedGe (c : ServerConfig) (e ep : EndpointDescription) : bool :=
  if bothAuto c then modeAndLevelGe e ep else levelGe e ep.

(** The key of the specification, (securityMode, securityLevel). *)
Definition key (e : EndpointDescription) : Z * Z := (SecurityMode e, SecurityLevel e).

(** C1 in the words of the specification, for one list: the endpoint selected
    passes the filter, has the highest key among those that pass, keys being
    compared as pairs (mode first, then level), and is the first of the list
    with that key among those that pass. *)
Definition pairLe (a b : Z * Z) : Prop := a.1 < b.1 \/ (a.1 = b.1 /\ a.2 <= b.2).

Definition selectsFirstMaximal (c : ServerConfig) (mode : Z) (policy : string)
    (ee : list EndpointDescription) : Prop :=
  forall ep : EndpointDescription,
    selectEndpoint c mode policy ee = Some ep ->
    exists l1 l2,
      ee = l1 ++ ep :: l2 /\
      keeps c mode policy ep = true /\
      (forall e, e ∈ ee -> keeps c mode policy e = true -> pairLe (key e) (key ep)) /\
      (forall e, e ∈ l1 -> keeps c mode policy e = true -> key e <> key ep).

End SelectionVocabulary.

Section NegotiationVocabulary.
Context {carriers : Carriers} {ext : Externals}.
Import config ua client.

(** findEndpoint from the third switch on, with the endpoints discovered and
    [mode] and [policy] as the [if] before it left them. *)
Definition selectAndCheck (c : ServerConfig) (mode : Z) (policy : string)
    (ee : list EndpointDescription) : outcome EndpointDescription :=
  match selectEndpoint c mode policy ee with
  | Some ep =>
      utt <- UserTokenTypeFromString (AuthMode c);;
      if advertises ep utt then Ok ep else Fatal noSuitableEndpoint []
  | None => Fatal noSuitableEndpoint []
  end.

(** C9 in the words of the specification: a ServerConfig with auth mode
    UserName and an empty user name does not get a client. *)
Definition emptyUsernameRejected (c : ServerConfig) : Prop :=
  AuthMode c = "UserName" -> Username c = "" ->
  forall cl : opcua.Client, NewClientFromServerConfig c <> Ok cl.

End NegotiationVocabulary.

Section PrevVocabulary.

(** The configuration of [config] with the same strings. *)
Definition asServerConfig (cfg : client_prev.ServerConfig) : config.ServerConfig :=
  {| config.Endpoint := client_prev.Endpoint cfg;
     config.CertPath := client_prev.CertFile cfg;
     config.KeyPath := client_prev.KeyFile cfg;
     config.SecPolicy := client_prev.Policy cfg;
     config.SecMode := client_prev.Mode cfg;
     config.AuthMode := client_prev.Auth cfg;
     config.Username := client_prev.Username cfg;
     config.Password := client_prev.Password cfg |}.

End PrevVocabulary.

Section FurtherVocabulary.

(** The field that validate names for the entry [m]: the first that is
    empty, in the order of its tests. The message for the node identifier
    says 'nodeValue'. *)
Definition firstMissing (m : config.Metric) : string :=
  if String.eqb (config.Name m) "" then "name"
  else if String.eqb (config.Help m) "" then "help"
  else if String.eqb (config.NodeID m) "" then "nodeValue"
  else "type".

(** The Config object [c] with the metrics configuration [mm]. *)
Definition withMetrics (c : config.Config) (mm : config.MetricsConfig) : config.Config :=
  {| config.ServerConfig_ := config.ServerConfig_ c; config.MetricsConfig_ := mm |}.

End FurtherVocabulary.

(** * Properties *)

(** ** Facts about the Go helpers *)

Lemma prefix_app (p s : string) : String.prefix p (p +:+ s) = true.
Proof.
  induction p as [|a p IH]; simpl.
  - by destruct s.
  - destruct (Ascii.ascii_dec a a) as [_|Hne]; [exact IH | by destruct Hne].
Qed.

Lemma Contains_here (s sub : string) : Contains (sub +:+ s) sub = true.
Proof.
  destruct sub as [|a sub]; simpl; [by destruct s|].
  destruct (Ascii.ascii_dec a a) as [_|Hne]; [by rewrite prefix_app | by destruct Hne].
Qed.

Lemma Contains_later (pre s sub : string) :
  Contains s sub = true -> Contains (pre +:+ s) sub = true.
Proof.
  intros H. induction pre as [|a pre IH]; simpl; [exact H|].
  rewrite IH. by case_match.
Qed.

Lemma bind_Ok {A B : Type} (m : outcome A) (k : A -> outcome B) (b : B) :
  bind m k = Ok b -> exists a, m = Ok a /\ k a = Ok b.
Proof. destruct m; simpl; [eauto | discriminate | discriminate]. Qed.

(** ** The metric cache *)

Section CacheProperties.
Context {carriers : Carriers} {ext : Externals}.
Import collector.

Lemma validate_from_incomplete (ms : list config.Metric) (i : nat) :
  Exists incomplete ms -> is_Some (config.validate_from i ms).
Proof.
  intros H. revert i. induction H as [m ms Hm | m ms _ IH]; intros i; simpl.
  - destruct (String.eqb_spec (config.Name m) ""); [eauto|].
    destruct (String.eqb_spec (config.Help m) ""); [eauto|].
    destruct (String.eqb_spec (config.NodeID m) ""); [eauto|].
    destruct (String.eqb_spec (config.Type_ m) ""); [eauto|].
    destruct Hm as [?|[?|[?|?]]]; congruence.
  - repeat (case_match; [eauto|]). apply IH.
Qed.

Lemma validate_from_complete (ms : list config.Metric) (i : nat) :
  config.validate_from i ms = None -> Forall (fun m => ~ incomplete m) ms.
Proof.
  revert i. induction ms as [|m ms IH]; intros i H; [constructor|].
  destruct (decide (Exists incomplete (m :: ms))) as [Hex|Hno].
  - apply (validate_from_incomplete _ i) in Hex. rewrite H in Hex. by destruct Hex.
  - by apply Forall_Exists_neg.
Qed.

Lemma appendMetrics_all_parse (ms : list config.Metric) (acc : list opcuaMetric) :
  Forall parses ms ->
  exists mm, appendMetrics ms acc = inl (acc ++ mm) /\ Forall2 builtFrom ms mm.
Proof.
  intros H. revert acc. induction H as [|m ms [id Hid] _ IH]; intros acc; simpl.
  - exists []. by rewrite app_nil_r.
  - rewrite Hid. fold (entryOf m id).
    destruct (IH (acc ++ [entryOf m id])) as (mm & Hmm & Hall).
    exists (entryOf m id :: mm). split.
    + rewrite Hmm. by rewrite <- app_assoc.
    + constructor; [by exists id | exact Hall].
Qed.

Lemma appendMetrics_one_fails (ms : list config.Metric) (acc : list opcuaMetric) :
  Exists (fun m => ~ parses m) ms -> exists err, appendMetrics ms acc = inr err.
Proof.
  intros H. revert acc. induction H as [m ms Hm | m ms _ IH]; intros acc; simpl.
  - destruct (ParseNodeID (config.NodeID m)) as [id|err] eqn:E; [|eauto].
    destruct Hm. by exists id.
  - destruct (ParseNodeID (config.NodeID m)); [apply IH | eauto].
Qed.

(** A cache build that meets a node identifier it cannot parse returns an
    error and leaves the collector as it was. *)
Lemma loadMetricsCache_one_fails (c : Collector) (cfg : config.MetricsConfig) :
  Exists (fun m => ~ parses m) (config.Metrics cfg) ->
  exists err, loadMetricsCache c cfg = (c, Some err).
Proof.
  intros H. unfold loadMetricsCache.
  destruct (appendMetrics_one_fails _ [] H) as [err ->]. eauto.
Qed.

Lemma appendMetrics_inl (ms : list config.Metric) (acc r : list opcuaMetric) :
  appendMetrics ms acc = inl r ->
  exists mm, r = acc ++ mm /\ Forall2 builtFrom ms mm.
Proof.
  revert acc. induction ms as [|m ms IH]; intros acc H; simpl in H.
  - exists []. rewrite app_nil_r. split; [congruence | constructor].
  - destruct (ParseNodeID (config.NodeID m)) as [id|err] eqn:Hid; [|discriminate].
    fold (entryOf m id) in H. destruct (IH _ H) as (mm & -> & Hall).
    exists (entryOf m id :: mm). split; [by rewrite <- app_assoc|].
    constructor; [by exists id | exact Hall].
Qed.

(** Whatever the configuration, the cache after loadMetricsCache is the one
    before it or a whole new one, with an entry for every configuration
    entry. *)
Lemma loadMetricsCache_old_or_new (c : Collector) (cfg : config.MetricsConfig) :
  (exists err, loadMetricsCache c cfg = (c, Some err)) \/
  (exists mm, loadMetricsCache c cfg = (withCache c mm, None) /\
              Forall2 builtFrom (config.Metrics cfg) mm).
Proof.
  unfold loadMetricsCache.
  destruct (appendMetrics (config.Metrics cfg) []) as [mm|err] eqn:E.
  - right. exists mm. split; [done|].
    by destruct (appendMetrics_inl _ _ _ E) as (mm' & -> & H).
  - left. eauto.
Qed.

End CacheProperties.

Section CacheClaims.
Context {carriers : Carriers} {ext : Externals}.
Import collector.

(** C5. Validation fails on an empty metric list, and on a list with an
    entry whose name, help, nodeid or type is empty; and for a configuration
    that passes validation and whose node identifiers all parse,
    loadMetricsCache installs a cache with one entry per configuration entry,
    each built from the entry at the same position. *)
Theorem validation_and_cache_build (cfg : config.MetricsConfig) :
  (config.Metrics cfg = [] -> is_Some (config.validate cfg)) /\
  (Exists incomplete (config.Metrics cfg) -> is_Some (config.validate cfg)) /\
  (forall c : Collector,
      config.validate cfg = None ->
      Forall parses (config.Metrics cfg) ->
      exists mm,
        loadMetricsCache c cfg = (withCache c mm, None) /\
        opcuaMetricsCache (loadMetricsCache c cfg).1 = mm /\
        length mm = length (config.Metrics cfg) /\
        Forall2 builtFrom (config.Metrics cfg) mm).
Proof.
  split; [|split].
  - intros H. unfold config.validate. rewrite H. simpl. eauto.
  - intros H. unfold config.validate.
    destruct (length (config.Metrics cfg) =? 0)%nat; [eauto|].
    by apply validate_from_incomplete.
  - intros c _ Hall. unfold loadMetricsCache.
    destruct (appendMetrics_all_parse _ [] Hall) as (mm & -> & H).
    exists mm. repeat split; try done.
    symmetry. by eapply Forall2_length.
Qed.

End CacheClaims.

Lemma validation_and_cache_build_witness :
  is_Some (config.validate {| config.Metrics := [] |}) /\
  is_Some (config.validate
             {| config.Metrics := [world.metricOf "" "ns=2;i=1" ∅] |}) /\
  exists mm,
    collector.loadMetricsCache world.emptyCollector world.twoMetrics
    = (collector.withCache world.emptyCollector mm, None) /\
    collector.opcuaMetricsCache
      (collector.loadMetricsCache world.emptyCollector world.twoMetrics).1 = mm /\
    length mm = 2%nat /\
    Forall2 builtFrom (config.Metrics world.twoMetrics) mm.
Proof.
  split; [|split].
  - apply (proj1 (validation_and_cache_build {| config.Metrics := [] |})).
    reflexivity.
  - apply (proj1 (proj2 (validation_and_cache_build
                           {| config.Metrics := [world.metricOf "" "ns=2;i=1" ∅] |}))).
    apply Exists_cons_hd. left. reflexivity.
  - apply (proj2 (proj2 (validation_and_cache_build world.twoMetrics))).
    + reflexivity.
    + repeat constructor; eexists; reflexivity.
Defined.

(** ** Reload *)

Section ReloadClaims.
Context {carriers : Carriers} {ext : Externals} {yaml : config.Yaml}.
Import collector.

Lemma sameButCache_refl (c : Collector) : sameButCache c c.
Proof. by repeat split. Qed.

Lemma loadMetricsCache_frame (c : Collector) (cfg : config.MetricsConfig) :
  sameButCache c (loadMetricsCache c cfg).1.
Proof.
  destruct (loadMetricsCache_old_or_new c cfg) as [[err ->] | (mm & -> & _)];
    by repeat split.
Qed.

(** C8. A reload, whether the cache build succeeds or fails, changes no field
    of the Collector but the metric cache: the opcuaClient is the one it was,
    after ReloadMetrics and after a whole run of the reload handler, whose
    calls on the registry pass collectors with that same client, and which
    leaves the server configuration as it was. *)
Theorem reload_keeps_session (c : Collector) :
  (forall cfg : config.MetricsConfig,
      sameButCache c (ReloadMetrics c cfg) /\
      opcuaClient (ReloadMetrics c cfg) = opcuaClient c) /\
  (forall (configPath : string) (updateFromBody : bool) (r : main.Request)
          (st : main.State),
      let served := main.reloadConfigHandler configPath updateFromBody r st c in
      sameButCache c (main.metricsCollector served) /\
      opcuaClient (main.metricsCollector served) = opcuaClient c /\
      Forall (fun call => sameButCache c (passed call)) (main.registryCalls served) /\
      config.ServerConfig_ (main.sc (main.state served))
      = config.ServerConfig_ (main.sc st)).
Proof.
  split.
  - intros cfg. split; [apply loadMetricsCache_frame|].
    apply (loadMetricsCache_frame c cfg).
  - intros configPath updateFromBody r st. unfold main.reloadConfigHandler.
    destruct (String.eqb (main.Method r) "POST");
      [|simpl; by repeat split].
    assert (Hload : forall st1 : main.State,
               config.ServerConfig_ (main.sc st1) = config.ServerConfig_ (main.sc st) ->
               config.ServerConfig_
                 (main.sc (main.sendReloadChannel st1 configPath).1)
               = config.ServerConfig_ (main.sc st)).
    { intros st1 H1. unfold main.sendReloadChannel, main.reloadConfig,
        config.LoadMetricsConfig, config.Unserialize.
      destruct (ReadFile (main.fs st1) configPath) as [content|msg].
      - destruct (config.Unmarshal content _) as [mm [e|]]; simpl; [done|].
        by destruct (config.validate mm).
      - by destruct (Contains msg _). }
    assert (Hrun : forall st1 : main.State,
               config.ServerConfig_ (main.sc st1) = config.ServerConfig_ (main.sc st) ->
               let served :=
                 let '(st2, err) := main.sendReloadChannel st1 configPath in
                 {| main.state := st2;
                    main.metricsCollector :=
                      ReloadMetrics c (config.MetricsConfig_ (main.sc st2));
                    main.httpErrors :=
                      match err with
                      | Some e => [{| main.message := "failed to reload config: %s";
                                      main.cause := Some e; main.code := 500 |}]
                      | None => []
                      end;
                    main.registryCalls :=
                      [main.Unregister c;
                       main.Register
                         (ReloadMetrics c (config.MetricsConfig_ (main.sc st2)))] |} in
               sameButCache c (main.metricsCollector served) /\
               opcuaClient (main.metricsCollector served) = opcuaClient c /\
               Forall (fun call => sameButCache c (passed call))
                 (main.registryCalls served) /\
               config.ServerConfig_ (main.sc (main.state served))
               = config.ServerConfig_ (main.sc st)).
    { intros st1 H1. specialize (Hload st1 H1).
      destruct (main.sendReloadChannel st1 configPath) as [st2 err]. simpl in *.
      repeat split; try apply (loadMetricsCache_frame c); try done.
      repeat constructor; simpl;
        try apply sameButCache_refl; apply (loadMetricsCache_frame c). }
    destruct updateFromBody; [|by apply Hrun].
    destruct (main.Body r) as [body|err]; [|simpl; by repeat split].
    destruct (negb (length body =? 0)%nat); by apply Hrun.
Qed.

End ReloadClaims.

(** C6, at a reload whose configuration has a node identifier that does not
    parse: loadMetricsCache returns the error and the cache stays, yet the
    handler answers without any http.Error, and registers the collector it
    had unregistered. *)
Theorem reload_drops_node_id_error :
  let served :=
    main.reloadConfigHandler "opcua.yaml" false world.post
      world.loadedState world.loadedCollector in
  config.Metrics (config.MetricsConfig_ (main.sc (main.state served)))
  = [world.metricOf "temperature" "10853" ∅] /\
  collector.loadMetricsCache world.loadedCollector
    (config.MetricsConfig_ (main.sc (main.state served)))
  = (world.loadedCollector,
     Some (errInvalidNodeID (errorString "invalid node id"))) /\
  main.metricsCollector served = world.loadedCollector /\
  length (collector.opcuaMetricsCache (main.metricsCollector served)) = 2%nat /\
  main.httpErrors served = [] /\
  main.registryCalls served
  = [main.Unregister world.loadedCollector; main.Register world.loadedCollector].
Proof. vm_compute. repeat split. Qed.

(** ** The poll round *)

Section PollClaims.
Context {carriers : Carriers} {ext : Externals}.
Import collector.

Lemma collectMetrics_zip (c : Collector) (resp : ReadResponse)
    (cache : list opcuaMetric) (idx : nat) :
  (idx + length cache <= length (Results resp))%nat ->
  collectMetrics c resp idx cache
  = Ok (zip_with (sampleOf c) cache (drop idx (Results resp))).
Proof.
  revert idx. induction cache as [|m cache IH]; intros idx Hlen; [done|].
  simpl in Hlen. cbn [collectMetrics].
  destruct (lookup_lt_is_Some_2 (Results resp) idx) as [r Hr]; [lia|].
  unfold getOpcuaValueFromIndex. rewrite Hr.
  rewrite (drop_S _ _ _ Hr). cbn [zip_with].
  rewrite (IH (S idx)) by lia.
  unfold sampleOf, isGood, getMetricWithValue, NewConstMetric, getErrorMetric.
  destruct (Status r =? ua.StatusOK); simpl; [|done].
  by destruct (constMetricError _ _).
Qed.

Lemma isError_sampleOf (c : Collector) (m : opcuaMetric) (r : DataValue) :
  accepted m -> isError (sampleOf c m r) = negb (isGood r).
Proof.
  unfold accepted, sampleOf. intros ->. by destruct (isGood r).
Qed.

Lemma count_samples (c : Collector) (cache : list opcuaMetric)
    (results : list DataValue) :
  Forall accepted cache ->
  length results = length cache ->
  count isError (zip_with (sampleOf c) cache results)
  = count (fun r => negb (isGood r)) results /\
  count isNormal (zip_with (sampleOf c) cache results) = count isGood results.
Proof.
  intros Hacc. revert results.
  induction Hacc as [|m cache Hm _ IH]; intros [|r results] Hlen;
    try discriminate; [done|].
  injection Hlen as Hlen. destruct (IH results Hlen) as [IHe IHn].
  unfold count in *. cbn [zip_with List.filter]. unfold isNormal at 1.
  rewrite (isError_sampleOf c m r Hm).
  destruct (isGood r); simpl; by rewrite ?IHe, ?IHn.
Qed.

Lemma count_split {A : Type} (f : A -> bool) (l : list A) :
  (count f l + count (fun x => negb (f x)) l = length l)%nat.
Proof.
  unfold count. induction l as [|x l IH]; [done|].
  simpl. destruct (f x); simpl; lia.
Qed.

(** C4, as the code has it. When the read gives as many results as the cache
    has entries, Collect sends one sample per entry and then one per
    instrumentation metric; the sample at position [i] is [sampleOf] the
    entry and the result at position [i]; where the metric constructor
    accepts every entry, the error samples are as many as the results that
    are not Good and the normal ones as many as the Good ones, so that one
    result that is not Good among N gives one error sample and N-1 normal
    ones. When the read fails, Collect sends the one error sample of the
    failure and returns. *)
Theorem poll_round (c : Collector) (read : ReadRequest -> ReadResponse + error)
    (clock : Clock) :
  (forall resp : ReadResponse,
      read (readRequest c) = inl resp ->
      length (Results resp) = length (opcuaMetricsCache c) ->
      Collect c read clock
      = Ok (perMetricSamples c resp ++ instrumentationSamples c clock resp) /\
      length (perMetricSamples c resp) = length (opcuaMetricsCache c) /\
      length (instrumentationSamples c clock resp) = length (statsMetricsCache c) /\
      forall (i : nat) (m : opcuaMetric) (r : DataValue),
        opcuaMetricsCache c !! i = Some m ->
        Results resp !! i = Some r ->
        perMetricSamples c resp !! i = Some (sampleOf c m r)) /\
  (forall resp : ReadResponse,
      read (readRequest c) = inl resp ->
      length (Results resp) = length (opcuaMetricsCache c) ->
      Forall accepted (opcuaMetricsCache c) ->
      count isError (perMetricSamples c resp)
      = count (fun r => negb (isGood r)) (Results resp) /\
      count isNormal (perMetricSamples c resp) = count isGood (Results resp) /\
      (count isError (perMetricSamples c resp)
       + count isNormal (perMetricSamples c resp))%nat
      = length (opcuaMetricsCache c)) /\
  (forall err : error,
      read (readRequest c) = inr err ->
      Collect c read clock = Ok [InvalidMetric (errorDesc c) err]).
Proof.
  split; [|split].
  - intros resp Hread Hlen. unfold Collect, scrapeTarget. rewrite Hread.
    rewrite collectMetrics_zip by (simpl; lia). rewrite drop_0. simpl.
    unfold perMetricSamples, instrumentationSamples.
    split; [by destruct clock|].
    split; [rewrite length_zip_with; lia|].
    split; [by rewrite length_map|].
    intros i m r Hm Hr. rewrite lookup_zip_with, Hm. simpl. by rewrite Hr.
  - intros resp _ Hlen Hacc. unfold perMetricSamples.
    destruct (count_samples c _ _ Hacc Hlen) as [He Hn].
    split; [done|]. split; [done|]. rewrite He, Hn, <- Hlen.
    pose proof (count_split isGood (Results resp)). lia.
  - intros err Hread. unfold Collect, scrapeTarget. by rewrite Hread.
Qed.

End PollClaims.

Lemma poll_round_witness :
  let c := world.loadedCollector in
  let resp := {| Results := [world.good 21; world.bad] |} in
  (collector.Collect c (world.answering (Results resp)) world.clock
   = Ok (perMetricSamples c resp ++ instrumentationSamples c world.clock resp) /\
   length (perMetricSamples c resp) = 2%nat /\
   count isError (perMetricSamples c resp) = 1%nat /\
   count isNormal (perMetricSamples c resp) = 1%nat) /\
  collector.Collect c (fun _ => inr (errorString "EOF")) world.clock
  = Ok [InvalidMetric (collector.errorDesc c) (errorString "EOF")].
Proof.
  intros c resp.
  pose proof (poll_round c (world.answering (Results resp)) world.clock) as [H1 [H2 _]].
  pose proof (poll_round c (fun _ => inr (errorString "EOF")) world.clock) as [_ [_ H3]].
  destruct (H1 resp eq_refl eq_refl) as (Hc & Hl & _).
  destruct (H2 resp eq_refl eq_refl) as (He & Hn & _).
  { repeat constructor. }
  split; [|exact (H3 _ eq_refl)].
  split; [exact Hc|]. split; [exact Hl|]. split; [exact He | exact Hn].
Defined.

(** C4 as specified fails for a collector whose one metric has a label value
    that the metric constructor refuses: the result is Good, and the sample
    sent for it is an error sample. *)
Lemma poll_round_good_status_error_sample :
  collector.Collect world.binaryLabelCollector (world.answering [world.good 21])
    world.clock
  = Ok (InvalidMetric (collector.errorDesc world.binaryLabelCollector)
          (errForMetric "temperature" {[ "site" := world.byte255 ]}
             (errorString "label value is not valid UTF-8"))
        :: instrumentationSamples world.binaryLabelCollector world.clock
             {| Results := [world.good 21] |}) /\
  ~ pollRoundAsSpecified world.binaryLabelCollector
      (world.answering [world.good 21]) world.clock.
Proof.
  split; [by vm_compute|].
  intros H. destruct (H {| Results := [world.good 21] |} eq_refl eq_refl)
    as (perMetric & rest & Hc & Hlen & Hat).
  destruct (Hat 0%nat (world.good 21) eq_refl) as (s & Hs & Hnormal).
  destruct perMetric as [|s' perMetric]; [discriminate|].
  injection Hs as ->. vm_compute in Hc. injection Hc as <- _. discriminate.
Qed.

(** ** Loading the metrics configuration *)

Section LoadClaims.
Context {yaml : config.Yaml} {carriers : Carriers} {ext : Externals}.

Lemma ReadFile_missing (fs : gmap string file) (filename : string) :
  fs !! filename = None ->
  exists msg, ReadFile fs filename = inr msg /\
              Contains msg "no such file or directory" = true.
Proof.
  intros H. unfold ReadFile. rewrite H. eexists. split; [reflexivity|].
  apply (Contains_later "open "). apply (Contains_later filename). reflexivity.
Qed.

(** C10, as the code has it. With the file missing, LoadMetricsConfig
    returns no error and leaves the Config object as it is: NewConfig, which
    starts from an empty metrics configuration, returns one with zero
    metrics, and reloadConfig keeps the state, with the metrics of the last
    load. With the file there and decoded to an empty list of metrics,
    LoadMetricsConfig returns the error of validate. *)
Theorem load_with_missing_file (fs : gmap string file) (filename : string) :
  (fs !! filename = None ->
   (forall c : config.Config, config.LoadMetricsConfig c fs filename = (c, None)) /\
   (forall endpoint certPath keyPath secMode secPolicy authMode username password,
       exists c,
         config.NewConfig fs endpoint certPath keyPath secMode secPolicy authMode
           username password filename = inl c /\
         config.Metrics (config.MetricsConfig_ c) = []) /\
   (forall c : config.Config,
       main.reloadConfig {| main.fs := fs; main.sc := c |} filename
       = ({| main.fs := fs; main.sc := c |}, None))) /\
  (forall (c : config.Config) (content : list Byte.byte) (mm : config.MetricsConfig),
      fs !! filename = Some (readable content) ->
      config.Unmarshal content (config.MetricsConfig_ c) = (mm, None) ->
      config.Metrics mm = [] ->
      (config.LoadMetricsConfig c fs filename).2
      = Some (errorString "missing field 'metrics' in top configuration")).
Proof.
  split.
  - intros Hmiss. destruct (ReadFile_missing fs filename Hmiss) as (msg & Hread & Hc).
    assert (Hload : forall c : config.Config,
               config.LoadMetricsConfig c fs filename = (c, None)).
    { intros c. unfold config.LoadMetricsConfig. by rewrite Hread, Hc. }
    split; [exact Hload|]. split.
    + intros. unfold config.NewConfig. rewrite Hload. eauto.
    + intros c. unfold main.reloadConfig. simpl. by rewrite Hload.
  - intros c content mm Hfile Hdec Hempty.
    unfold config.LoadMetricsConfig, ReadFile, config.Unserialize.
    rewrite Hfile, Hdec. unfold config.validate. by rewrite Hempty.
Qed.

End LoadClaims.

Lemma load_with_missing_file_witness :
  config.LoadMetricsConfig (main.sc world.loadedState) ∅ "opcua.yaml"
  = (main.sc world.loadedState, None) /\
  (config.LoadMetricsConfig (main.sc world.loadedState)
     {[ "opcua.yaml" := readable [Byte.x63] ]} "opcua.yaml").2
  = Some (errorString "missing field 'metrics' in top configuration").
Proof.
  split.
  - apply (proj1 (load_with_missing_file ∅ "opcua.yaml")). reflexivity.
  - apply (proj2 (load_with_missing_file {[ "opcua.yaml" := readable [Byte.x63] ]}
                    "opcua.yaml") _ [Byte.x63] {| config.Metrics := [] |});
      reflexivity.
Defined.

(** C10 as claimed fails for a reload: the Config object that holds two
    metrics holds them still after a load with the file missing. *)
Lemma missing_file_keeps_loaded_metrics :
  main.reloadConfig
    {| main.fs := ∅; main.sc := main.sc world.loadedState |} "opcua.yaml"
  = ({| main.fs := ∅; main.sc := main.sc world.loadedState |}, None) /\
  length (config.Metrics (config.MetricsConfig_ (main.sc world.loadedState))) = 2%nat /\
  ~ missingFileLeavesEmpty (main.sc world.loadedState) ∅ "opcua.yaml".
Proof.
  split; [by vm_compute|]. split; [reflexivity|].
  intros H. destruct (H eq_refl) as (c' & Hload & Hempty).
  vm_compute in Hload. injection Hload as <-. discriminate.
Qed.

(** ** Endpoint negotiation *)

Section ScanFacts.
Import ua client.
Variable keep : EndpointDescription -> bool.
Variable better : EndpointDescription -> EndpointDescription -> bool.
Hypothesis better_trans :
  forall a b c, better a b = true -> better b c = true -> better a c = true.

Lemma scan_snoc (ee : list EndpointDescription) (x : EndpointDescription) :
  scan keep better (ee ++ [x])
  = if keep x && match scan keep better ee with
                 | None => true
                 | Some p => better x p
                 end
    then Some x else scan keep better ee.
Proof. unfold scan. by rewrite fold_left_app. Qed.

Lemma scan_scanned (ee : list EndpointDescription) :
  scanned keep better ee (scan keep better ee).
Proof.
  induction ee as [|x ee IH] using rev_ind.
  - intros e He. by apply elem_of_nil in He.
  - rewrite scan_snoc. destruct (keep x) eqn:Hx; simpl.
    + destruct (scan keep better ee) as [ep|].
      * destruct IH as (l1 & l2 & -> & Hep & Hafter & Hbefore).
        destruct (better x ep) eqn:Hb.
        -- exists (l1 ++ ep :: l2), []. split; [done|]. split; [done|].
           split; [intros e He; by apply elem_of_nil in He|].
           intros e He Hk Hex. apply elem_of_app in He as [He|He].
           ++ apply (better_trans x ep e); [done|].
              apply Hbefore; [done..|]. by apply (better_trans e x ep).
           ++ apply elem_of_cons in He as [->|He]; [done|].
              pose proof (Hafter e He Hk) as Hno.
              rewrite (better_trans e x ep Hex Hb) in Hno. discriminate.
        -- exists l1, (l2 ++ [x]). split; [by rewrite <- app_assoc|].
           split; [done|]. split; [|done].
           intros e He Hk. apply elem_of_app in He as [He|He]; [by apply Hafter|].
           apply list_elem_of_singleton in He as ->. done.
      * exists ee, []. split; [done|]. split; [done|].
        split; [intros e He; by apply elem_of_nil in He|].
        intros e He Hk. by rewrite (IH e He) in Hk.
    + destruct (scan keep better ee) as [ep|].
      * destruct IH as (l1 & l2 & -> & Hep & Hafter & Hbefore).
        exists l1, (l2 ++ [x]). split; [by rewrite <- app_assoc|].
        split; [done|]. split; [|done].
        intros e He Hk. apply elem_of_app in He as [He|He]; [by apply Hafter|].
        apply list_elem_of_singleton in He as ->. congruence.
      * intros e He. apply elem_of_app in He as [He|He]; [by apply IH|].
        by apply list_elem_of_singleton in He as ->.
Qed.

End ScanFacts.

Section SelectionClaims.
Import config ua client.

Lemma comparedGe_trans (c : ServerConfig) (e1 e2 e3 : EndpointDescription) :
  comparedGe c e1 e2 = true -> comparedGe c e2 e3 = true -> comparedGe c e1 e3 = true.
Proof.
  unfold comparedGe, modeAndLevelGe, levelGe. destruct (bothAuto c);
    rewrite ?andb_true_iff, ?Z.geb_le; lia.
Qed.

Lemma selectEndpoint_scan (c : ServerConfig) (mode : Z) (policy : string)
    (ee : list EndpointDescription) :
  selectEndpoint c mode policy ee = scan (keeps c mode policy) (comparedGe c) ee.
Proof.
  unfold selectEndpoint, keeps, comparedGe, bothAuto.
  destruct (String.eqb (SecMode c) "auto"), (String.eqb (SecPolicy c) "auto");
    reflexivity.
Qed.

(** C1, as the code has it. selectEndpoint gives nothing exactly when no
    endpoint passes the active filter. The endpoint [ep] it gives passes the
    filter; no endpoint after it in the list passes the filter and compares
    greater or equal, so among endpoints that tie the last one is selected;
    and it is maximal for the comparison of its case: with mode or policy
    constrained no passing endpoint has a higher level (with the mode
    constrained all of them have the mode of [ep], so its key is the highest
    pair), with neither constrained no endpoint is greater or equal in both
    mode and level unless it has the same key. *)
Theorem endpoint_selection (c : ServerConfig) (mode : Z) (policy : string)
    (ee : list EndpointDescription) :
  (selectEndpoint c mode policy ee = None <->
   forall e, e ∈ ee -> keeps c mode policy e = false) /\
  (forall ep : EndpointDescription,
      selectEndpoint c mode policy ee = Some ep ->
      keeps c mode policy ep = true /\
      (exists l1 l2,
          ee = l1 ++ ep :: l2 /\
          forall e, e ∈ l2 -> keeps c mode policy e = true ->
                    comparedGe c e ep = false) /\
      (bothAuto c = false ->
       forall e, e ∈ ee -> keeps c mode policy e = true ->
                 SecurityLevel e <= SecurityLevel ep) /\
      (String.eqb (SecMode c) "auto" = false ->
       forall e, e ∈ ee -> keeps c mode policy e = true ->
                 SecurityMode e = SecurityMode ep) /\
      (bothAuto c = true ->
       forall e, e ∈ ee ->
                 SecurityMode ep <= SecurityMode e ->
                 SecurityLevel ep <= SecurityLevel e ->
                 key e = key ep)).
Proof.
  rewrite selectEndpoint_scan.
  pose proof (scan_scanned (keeps c mode policy) (comparedGe c)
                (comparedGe_trans c) ee) as H.
  destruct (scan (keeps c mode policy) (comparedGe c) ee) as [sel|]; simpl in H.
  - destruct H as (l1 & l2 & -> & Hsel & Hafter & Hbefore).
    split.
    + split; [discriminate|]. intros Hnone.
      rewrite Hnone in Hsel; [discriminate|]. apply elem_of_app. right. left.
    + intros ep [= <-].
      assert (Hmax : forall e, e ∈ l1 ++ sel :: l2 -> keeps c mode policy e = true ->
                               comparedGe c e sel = true -> comparedGe c sel e = true).
      { intros e He Hk Hge. apply elem_of_app in He as [He|He]; [by apply Hbefore|].
        apply elem_of_cons in He as [->|He]; [done|].
        rewrite (Hafter e He Hk) in Hge. discriminate. }
      split; [done|]. split; [by exists l1, l2|].
      split; [|split].
      * intros Hcase e He Hk. specialize (Hmax e He Hk). revert Hmax.
        unfold comparedGe, levelGe. rewrite Hcase, !Z.geb_le. lia.
      * intros Hcase e He Hk. revert Hk Hsel. unfold keeps. rewrite Hcase. simpl.
        destruct (String.eqb (SecPolicy c) "auto"); simpl;
          rewrite ?andb_true_iff, ?Z.eqb_eq; [congruence|].
        intros [_ ->] [_ ->]. done.
      * intros Hcase e He Hm Hl.
        assert (Hk : keeps c mode policy e = true).
        { unfold keeps. unfold bothAuto in Hcase. by rewrite Hcase. }
        specialize (Hmax e He Hk). revert Hmax.
        unfold comparedGe, modeAndLevelGe, key. rewrite Hcase.
        rewrite !andb_true_iff, !Z.geb_le. intros Hmax. f_equal; lia.
  - split; [done|]. discriminate.
Qed.

End SelectionClaims.

Lemma endpoint_selection_witness :
  let c := world.secured "opc.tcp://example" "Sign" "auto" in
  let ee := [world.sign1; world.sign3; world.none9] in
  client.findEndpoint c = Ok world.sign3 /\
  client.keeps c ua.MessageSecurityModeSign "" world.sign3 = true /\
  (forall e, e ∈ ee -> client.keeps c ua.MessageSecurityModeSign "" e = true ->
             ua.SecurityLevel e <= 3) /\
  (forall e, e ∈ ee -> client.keeps c ua.MessageSecurityModeSign "" e = true ->
             ua.SecurityMode e = ua.MessageSecurityModeSign).
Proof.
  intros c ee. split; [reflexivity|].
  destruct (proj2 (endpoint_selection c ua.MessageSecurityModeSign "" ee)
              world.sign3 eq_refl) as (Hk & _ & Hlevel & Hmode & _).
  split; [exact Hk|]. split; [exact (Hlevel eq_refl) | exact (Hmode eq_refl)].
Defined.

(** C1 as specified fails in two ways. Of two endpoints with the same mode
    and level the second is selected, not the first. And with only the
    policy constrained the mode is not compared: after a sign-and-encrypt
    endpoint, a sign endpoint of the same policy and level is selected. *)
Lemma selection_replaces_incumbent_on_ties :
  (client.findEndpoint (world.secured "opc.tcp://twins" "auto" "auto") = Ok world.twinB /\
   client.selectEndpoint (world.secured "opc.tcp://twins" "auto" "auto")
     ua.MessageSecurityModeInvalid "" [world.twinA; world.twinB] = Some world.twinB /\
   key world.twinA = key world.twinB /\
   ~ selectsFirstMaximal (world.secured "opc.tcp://twins" "auto" "auto")
       ua.MessageSecurityModeInvalid "" [world.twinA; world.twinB]) /\
  (client.findEndpoint (world.secured "opc.tcp://mixed" "auto" "Basic256Sha256")
   = Ok world.signed1 /\
   client.selectEndpoint (world.secured "opc.tcp://mixed" "auto" "Basic256Sha256")
     ua.MessageSecurityModeInvalid world.policyBasic256Sha256
     [world.encrypted1; world.signed1] = Some world.signed1 /\
   ~ selectsFirstMaximal (world.secured "opc.tcp://mixed" "auto" "Basic256Sha256")
       ua.MessageSecurityModeInvalid world.policyBasic256Sha256
       [world.encrypted1; world.signed1]).
Proof.
  split.
  - split; [reflexivity|]. split; [reflexivity|]. split; [reflexivity|].
    intros H. destruct (H world.twinB eq_refl) as (l1 & l2 & Heq & _ & _ & Hfirst).
    destruct l1 as [|x l1]; [discriminate|].
    injection Heq as <- Heq. apply (Hfirst world.twinA); [left | reflexivity..].
  - split; [reflexivity|]. split; [reflexivity|].
    intros H. destruct (H world.signed1 eq_refl) as (l1 & l2 & _ & _ & Hmax & _).
    destruct (Hmax world.encrypted1) as [Hlt|[Heq _]];
      [left | reflexivity | vm_compute in Hlt; discriminate | discriminate].
Qed.

Section NegotiationClaims.
Context {carriers : Carriers} {ext : Externals}.
Import config ua client.

Lemma findEndpoint_resolved (c : ServerConfig) (ee : list EndpointDescription)
    (policy : string) (mode : Z) :
  GetEndpoints (Endpoint c) = inl ee ->
  resolvePolicy c = Ok policy ->
  resolveMode c = Ok mode ->
  findEndpoint c
  = selectAndCheck c (noneForBoth mode policy).1 (noneForBoth mode policy).2 ee.
Proof.
  intros Hee Hp Hm. unfold findEndpoint. rewrite Hee, Hp, Hm. simpl.
  by destruct (noneForBoth mode policy).
Qed.

(** C2. Whatever the ServerConfig resolves to, if the resolved mode is the
    none mode or the resolved policy is the none policy, both are none after
    the [if], and the selection runs with both. *)
Theorem none_is_for_both (c : ServerConfig) (policy : string) (mode : Z) :
  resolvePolicy c = Ok policy ->
  resolveMode c = Ok mode ->
  mode = MessageSecurityModeNone \/ policy = SecurityPolicyURINone ->
  noneForBoth mode policy = (MessageSecurityModeNone, SecurityPolicyURINone) /\
  forall ee : list EndpointDescription,
    GetEndpoints (Endpoint c) = inl ee ->
    findEndpoint c
    = selectAndCheck c MessageSecurityModeNone SecurityPolicyURINone ee.
Proof.
  intros Hp Hm Hnone.
  assert (Hforced : noneForBoth mode policy
                    = (MessageSecurityModeNone, SecurityPolicyURINone)).
  { unfold noneForBoth. destruct Hnone as [-> | ->].
    - by rewrite Z.eqb_refl.
    - rewrite String.eqb_refl. by rewrite orb_true_r. }
  split; [exact Hforced|].
  intros ee Hee. rewrite (findEndpoint_resolved c ee policy mode Hee Hp Hm).
  by rewrite Hforced.
Qed.

(** C3. When the selection leaves an endpoint that does not advertise the
    token type of the configured auth mode, findEndpoint ends in l.Fatal with
    the no-suitable-endpoint message, whatever the other endpoints advertise;
    and so does NewClientFromServerConfig. *)
Theorem unsupported_token_type_is_fatal (c : ServerConfig)
    (ee : list EndpointDescription) (policy : string) (mode : Z)
    (ep : EndpointDescription) (utt : Z) :
  GetEndpoints (Endpoint c) = inl ee ->
  resolvePolicy c = Ok policy ->
  resolveMode c = Ok mode ->
  selectEndpoint c (noneForBoth mode policy).1 (noneForBoth mode policy).2 ee = Some ep ->
  UserTokenTypeFromString (AuthMode c) = Ok utt ->
  advertises ep utt = false ->
  findEndpoint c = Fatal noSuitableEndpoint [] /\
  NewClientFromServerConfig c = Fatal noSuitableEndpoint [].
Proof.
  intros Hee Hp Hm Hsel Hutt Hno.
  assert (Hfind : findEndpoint c = Fatal noSuitableEndpoint []).
  { rewrite (findEndpoint_resolved c ee policy mode Hee Hp Hm).
    unfold selectAndCheck. rewrite Hsel, Hutt. simpl. by rewrite Hno. }
  split; [exact Hfind|]. unfold NewClientFromServerConfig. by rewrite Hfind.
Qed.

(** findEndpoint, taken apart at a return with an endpoint. *)
Lemma findEndpoint_Ok (c : ServerConfig) (ep : EndpointDescription) :
  findEndpoint c = Ok ep ->
  exists ee policy mode utt,
    GetEndpoints (Endpoint c) = inl ee /\
    resolvePolicy c = Ok policy /\
    resolveMode c = Ok mode /\
    selectEndpoint c (noneForBoth mode policy).1 (noneForBoth mode policy).2 ee
    = Some ep /\
    UserTokenTypeFromString (AuthMode c) = Ok utt /\
    advertises ep utt = true.
Proof.
  unfold findEndpoint. intros H.
  destruct (GetEndpoints (Endpoint c)) as [ee|err]; [|discriminate].
  simpl in H. destruct (resolvePolicy c) as [policy| |]; try discriminate.
  simpl in H. destruct (resolveMode c) as [mode| |]; try discriminate.
  simpl in H. destruct (noneForBoth mode policy) as [m p] eqn:Hn.
  destruct (selectEndpoint c m p ee) as [sel|] eqn:Hsel; [|discriminate].
  destruct (UserTokenTypeFromString (AuthMode c)) as [utt| |]; try discriminate.
  simpl in H. destruct (advertises sel utt) eqn:Hadv; [|discriminate].
  injection H as <-. exists ee, policy, mode, utt. rewrite Hn. simpl.
  by repeat split.
Qed.

(** C9, as the code has it. With auth mode UserName, authenticationOptions
    looks up the token type of the auth mode and returns the user-name option
    with the configured user name and password as they are, the empty user
    name too; nothing is refused: when findEndpoint, loadCertificate and
    securityOptions return, the client is built with that option. With auth
    mode Anonymous the option is the anonymous one, which holds no user
    name, password or certificate. *)
Theorem username_is_not_checked (c : ServerConfig) (e : EndpointDescription)
    (crt : tls.Certificate_) :
  (AuthMode c = "UserName" ->
   authenticationOptions c e crt
   = (utt <- UserTokenTypeFromString (AuthMode c);;
      Ok [opcua.AuthUsername (Username c) (Password c);
          opcua.SecurityFromEndpoint e utt]) /\
   forall s : list opcua.Option_,
     findEndpoint c = Ok e ->
     loadCertificate c = Ok crt ->
     securityOptions c e crt = Ok s ->
     exists utt : Z,
       UserTokenTypeFromString (AuthMode c) = Ok utt /\
       NewClientFromServerConfig c
       = Ok (opcua.NewClient (Endpoint c)
               (connectionOptions ++
                [opcua.AuthUsername (Username c) (Password c);
                 opcua.SecurityFromEndpoint e utt] ++ s))) /\
  (AuthMode c = "Anonymous" ->
   authenticationOptions c e crt
   = (utt <- UserTokenTypeFromString (AuthMode c);;
      Ok [opcua.AuthAnonymous; opcua.SecurityFromEndpoint e utt]) /\
   forall s : list opcua.Option_,
     findEndpoint c = Ok e ->
     loadCertificate c = Ok crt ->
     securityOptions c e crt = Ok s ->
     exists utt : Z,
       UserTokenTypeFromString (AuthMode c) = Ok utt /\
       NewClientFromServerConfig c
       = Ok (opcua.NewClient (Endpoint c)
               (connectionOptions ++
                [opcua.AuthAnonymous; opcua.SecurityFromEndpoint e utt] ++ s))).
Proof.
  assert (Hbuilt : forall (a : opcua.Option_) (s : list opcua.Option_),
            authenticationOptions c e crt
            = (utt <- UserTokenTypeFromString (AuthMode c);;
               Ok [a; opcua.SecurityFromEndpoint e utt]) ->
            findEndpoint c = Ok e ->
            loadCertificate c = Ok crt ->
            securityOptions c e crt = Ok s ->
            exists utt : Z,
              UserTokenTypeFromString (AuthMode c) = Ok utt /\
              NewClientFromServerConfig c
              = Ok (opcua.NewClient (Endpoint c)
                      (connectionOptions ++
                       [a; opcua.SecurityFromEndpoint e utt] ++ s))).
  { intros a s Ha He Hcrt Hs.
    destruct (findEndpoint_Ok c e He)
      as (ee & policy & mode & utt & _ & _ & _ & _ & Hutt & _).
    exists utt. split; [exact Hutt|].
    unfold NewClientFromServerConfig.
    rewrite He. simpl. rewrite Hcrt. simpl. rewrite Ha, Hutt. simpl.
    by rewrite Hs. }
  split; intros Hauth.
  - assert (Ha : authenticationOptions c e crt
                 = (utt <- UserTokenTypeFromString (AuthMode c);;
                    Ok [opcua.AuthUsername (Username c) (Password c);
                        opcua.SecurityFromEndpoint e utt])).
    { unfold authenticationOptions. rewrite Hauth. reflexivity. }
    split; [exact Ha|]. intros s. by apply Hbuilt.
  - assert (Ha : authenticationOptions c e crt
                 = (utt <- UserTokenTypeFromString (AuthMode c);;
                    Ok [opcua.AuthAnonymous; opcua.SecurityFromEndpoint e utt])).
    { unfold authenticationOptions. rewrite Hauth. reflexivity. }
    split; [exact Ha|]. intros s. by apply Hbuilt.
Qed.

End NegotiationClaims.

Lemma none_is_for_both_witness :
  let c := world.server "opc.tcp://plain" "Anonymous" "" in
  client.resolvePolicy c = Ok ua.SecurityPolicyURINone /\
  client.resolveMode c = Ok ua.MessageSecurityModeInvalid /\
  client.noneForBoth ua.MessageSecurityModeInvalid ua.SecurityPolicyURINone
  = (ua.MessageSecurityModeNone, ua.SecurityPolicyURINone).
Proof.
  intros c. split; [reflexivity|]. split; [reflexivity|].
  apply (none_is_for_both c ua.SecurityPolicyURINone ua.MessageSecurityModeInvalid);
    [reflexivity | reflexivity | right; reflexivity].
Defined.

Lemma unsupported_token_type_is_fatal_witness :
  let c := world.secured "opc.tcp://strict" "auto" "auto" in
  (exists ee e, GetEndpoints (config.Endpoint c) = inl ee /\ e ∈ ee /\
                client.advertises e ua.UserTokenTypeAnonymous = true) /\
  client.findEndpoint c = Fatal client.noSuitableEndpoint [] /\
  client.NewClientFromServerConfig c = Fatal client.noSuitableEndpoint [].
Proof.
  intros c. split.
  - eexists _, _. split; [reflexivity|]. split; [left | reflexivity].
  - apply (unsupported_token_type_is_fatal c
             [world.endpointOf "opc.tcp://strict/none" ua.MessageSecurityModeNone
                ua.SecurityPolicyURINone 0
                [ua.UserTokenTypeAnonymous; ua.UserTokenTypeUserName];
              world.endpointOf "opc.tcp://strict/sign" ua.MessageSecurityModeSign
                world.policyBasic256Sha256 2 [ua.UserTokenTypeCertificate]]
             "" ua.MessageSecurityModeInvalid
             (world.endpointOf "opc.tcp://strict/sign" ua.MessageSecurityModeSign
                world.policyBasic256Sha256 2 [ua.UserTokenTypeCertificate])
             ua.UserTokenTypeAnonymous); reflexivity.
Defined.

Lemma username_is_not_checked_witness :
  let e := world.endpointOf "opc.tcp://plain" ua.MessageSecurityModeNone
             ua.SecurityPolicyURINone 0
             [ua.UserTokenTypeAnonymous; ua.UserTokenTypeUserName] in
  (exists utt : Z,
     UserTokenTypeFromString "UserName" = Ok utt /\
     client.NewClientFromServerConfig (world.server "opc.tcp://plain" "UserName" "")
     = Ok (opcua.NewClient "opc.tcp://plain"
             (client.connectionOptions ++
              [opcua.AuthUsername "" ""; opcua.SecurityFromEndpoint e utt] ++ []))) /\
  (exists utt : Z,
     UserTokenTypeFromString "Anonymous" = Ok utt /\
     client.NewClientFromServerConfig (world.server "opc.tcp://plain" "Anonymous" "")
     = Ok (opcua.NewClient "opc.tcp://plain"
             (client.connectionOptions ++
              [opcua.AuthAnonymous; opcua.SecurityFromEndpoint e utt] ++ []))).
Proof.
  intros e. split.
  - destruct (username_is_not_checked
                (world.server "opc.tcp://plain" "UserName" "") e tls.zero)
      as [H _].
    destruct H as [_ H]; [reflexivity|]. apply H; reflexivity.
  - destruct (username_is_not_checked
                (world.server "opc.tcp://plain" "Anonymous" "") e tls.zero)
      as [_ H].
    destruct H as [_ H]; [reflexivity|]. apply H; reflexivity.
Defined.

(** C9 as specified fails: with auth mode UserName and the empty user name
    the client is built, with the empty user name in its options. *)
Lemma empty_username_builds_client :
  let c := world.server "opc.tcp://plain" "UserName" "" in
  config.AuthMode c = "UserName" /\
  config.Username c = "" /\
  (exists e, client.NewClientFromServerConfig c
             = Ok (opcua.NewClient "opc.tcp://plain"
                     (client.connectionOptions ++
                      [opcua.AuthUsername "" "";
                       opcua.SecurityFromEndpoint e ua.UserTokenTypeUserName]))) /\
  ~ emptyUsernameRejected c.
Proof.
  intros c. split; [reflexivity|]. split; [reflexivity|]. split.
  - eexists. reflexivity.
  - intros H. by eapply (H eq_refl eq_refl).
Qed.

(** ** The other text of the two packages, compared *)

Section PrevProperties.
Context {carriers : Carriers} {ext : Externals}.

(** The third switch of clientSecurityOptions is that of findEndpoint. *)
Lemma bestEndpoint_selectEndpoint (cfg : client_prev.ServerConfig) (secMode : Z)
    (secPolicy : string) (endpoints : list ua.EndpointDescription) :
  client_prev.bestEndpoint cfg secMode secPolicy endpoints
  = client.selectEndpoint (asServerConfig cfg) secMode secPolicy endpoints.
Proof. reflexivity. Qed.

(** The two switches before it resolve as those of findEndpoint do, and leave
    "auto" where it was and nowhere else. *)
Lemma policySwitch_resolvePolicy (cfg : client_prev.ServerConfig) :
  match client_prev.policySwitch cfg with
  | Some (secPolicy, cfg') =>
      client.resolvePolicy (asServerConfig cfg) = Ok secPolicy /\
      String.eqb (client_prev.Policy cfg') "auto"
      = String.eqb (client_prev.Policy cfg) "auto" /\
      client_prev.Mode cfg' = client_prev.Mode cfg
  | None => exists v, client.resolvePolicy (asServerConfig cfg)
                      = Fatal "invalid security policy: %s" v
  end.
Proof.
  unfold client_prev.policySwitch, client.resolvePolicy. simpl.
  destruct (String.eqb (client_prev.Policy cfg) "auto") eqn:Hauto; [done|].
  destruct (HasPrefix _ _); [done|].
  destruct (client.isPolicyName _); [done|]. eauto.
Qed.

Lemma modeSwitch_resolveMode (cfg : client_prev.ServerConfig) :
  ToLower "auto" = "auto" ->
  match client_prev.modeSwitch cfg with
  | Some (secMode, cfg') =>
      client.resolveMode (asServerConfig cfg) = Ok secMode /\
      String.eqb (client_prev.Mode cfg') "auto"
      = String.eqb (client_prev.Mode cfg) "auto" /\
      client_prev.Policy cfg' = client_prev.Policy cfg
  | None => exists v, client.resolveMode (asServerConfig cfg)
                      = Fatal "invalid security mode: %s" v
  end.
Proof.
  intros Hlower. unfold client_prev.modeSwitch, client.resolveMode. simpl.
  assert (Hne : String.eqb (ToLower (client_prev.Mode cfg)) "auto" = false ->
                String.eqb (client_prev.Mode cfg) "auto" = false).
  { intros H. apply String.eqb_neq. intros Heq. rewrite Heq, Hlower in H. discriminate. }
  destruct (String.eqb (ToLower (client_prev.Mode cfg)) "auto"); [done|].
  specialize (Hne eq_refl).
  destruct (String.eqb (ToLower (client_prev.Mode cfg)) "none"); [by rewrite Hne|].
  destruct (String.eqb (ToLower (client_prev.Mode cfg)) "sign"); [by rewrite Hne|].
  destruct (String.eqb (ToLower (client_prev.Mode cfg)) "signandencrypt");
    [by rewrite Hne | eauto].
Qed.

(** The sample of opcuaToPrometheusMetrics for an entry and a result: as
    [sampleOf] has it for Collect, an error sample for a status that is not
    Good and, for a Good one, the normal sample unless the metric constructor
    refuses it. *)
Lemma sampleFor_cases (m : collector_prev.metric) (r : DataValue) :
  (Status r <> ua.StatusOK ->
   collector_prev.sampleFor m r
   = InvalidMetric collector_prev.errorDesc
       (errMetricStatus (collector_prev.name m) (collector_prev.labels m) (Status r))) /\
  (Status r = ua.StatusOK ->
   constMetricError (collector_prev.promDesc m) (collector_prev.labelsValues m) = None ->
   collector_prev.sampleFor m r
   = ConstMetric (collector_prev.promDesc m) (collector_prev.typ m) (Float (Value r))
       (collector_prev.labelsValues m)) /\
  (forall err,
      Status r = ua.StatusOK ->
      constMetricError (collector_prev.promDesc m) (collector_prev.labelsValues m)
      = Some err ->
      collector_prev.sampleFor m r
      = InvalidMetric collector_prev.errorDesc
          (errMetricCause (collector_prev.name m) (collector_prev.labels m) err)).
Proof.
  unfold collector_prev.sampleFor, collector.NewConstMetric.
  split; [|split].
  - intros H. apply Z.eqb_neq in H. by rewrite H.
  - intros -> ->. reflexivity.
  - intros err -> ->. reflexivity.
Qed.

(** opcuaToPrometheusMetrics gives one sample per cache entry, each from the
    result at the entry's position. *)
Lemma samplesFrom_zip (resp : ReadResponse) (cache : list collector_prev.metric)
    (idx : nat) :
  (idx + length cache <= length (Results resp))%nat ->
  collector_prev.samplesFrom resp idx cache
  = Ok (zip_with collector_prev.sampleFor cache (drop idx (Results resp))).
Proof.
  revert idx. induction cache as [|m cache IH]; intros idx Hlen; [done|].
  simpl in Hlen. cbn [collector_prev.samplesFrom].
  destruct (lookup_lt_is_Some_2 (Results resp) idx) as [r Hr]; [lia|].
  rewrite Hr, (drop_S _ _ _ Hr), (IH (S idx)) by lia. reflexivity.
Qed.

Lemma opcuaToPrometheusMetrics_positional (c : collector_prev.Collector)
    (resp : ReadResponse) :
  length (Results resp) = length (collector_prev.metricsCache c) ->
  exists samples,
    collector_prev.opcuaToPrometheusMetrics c resp = Ok samples /\
    length samples = length (collector_prev.metricsCache c) /\
    forall i m r,
      collector_prev.metricsCache c !! i = Some m ->
      Results resp !! i = Some r ->
      samples !! i = Some (collector_prev.sampleFor m r).
Proof.
  intros Hlen. unfold collector_prev.opcuaToPrometheusMetrics.
  rewrite samplesFrom_zip by (simpl; lia). rewrite drop_0.
  eexists. split; [reflexivity|]. split; [rewrite length_zip_with; lia|].
  intros i m r Hm Hr. rewrite lookup_zip_with, Hm. simpl. by rewrite Hr.
Qed.

(** Its loadMetricsCache, too, installs a whole cache or none, and its
    ReloadMetrics changes no other field. *)
Lemma appendMetrics_prev_length (ms : list config.Metric)
    (acc r : list collector_prev.metric) :
  collector_prev.appendMetrics ms acc = inl r ->
  length r = (length acc + length ms)%nat /\
  exists mm, r = acc ++ mm /\
             map collector_prev.name mm = map config.Name ms /\
             map collector_prev.nodeID mm = map config.NodeID ms.
Proof.
  revert acc. induction ms as [|m ms IH]; intros acc H; simpl in H.
  - injection H as <-. split; [simpl; lia|]. exists []. by rewrite app_nil_r.
  - destruct (ParseNodeID (config.NodeID m)) as [id|err]; [|discriminate].
    destruct (IH _ H) as (Hlen & mm & -> & Hn & Hi).
    rewrite !length_app in Hlen. simpl in Hlen.
    split; [rewrite !length_app; simpl; lia|].
    eexists (_ :: mm). split; [by rewrite <- app_assoc|].
    simpl. by rewrite Hn, Hi.
Qed.

Lemma loadMetricsCache_prev_old_or_new (c : collector_prev.Collector)
    (cfg : config.MetricsConfig) :
  (exists err, collector_prev.loadMetricsCache c cfg = (c, Some err)) \/
  (exists mm,
      collector_prev.loadMetricsCache c cfg
      = ({| collector_prev.Logger := collector_prev.Logger c;
            collector_prev.ServerConfig := collector_prev.ServerConfig c;
            collector_prev.opcuaClient := collector_prev.opcuaClient c;
            collector_prev.metricsCache := mm |}, None) /\
      length mm = length (config.Metrics cfg) /\
      map collector_prev.name mm = map config.Name (config.Metrics cfg) /\
      map collector_prev.nodeID mm = map config.NodeID (config.Metrics cfg)).
Proof.
  unfold collector_prev.loadMetricsCache.
  destruct (collector_prev.appendMetrics (config.Metrics cfg) []) as [mm|err] eqn:E.
  - right. exists mm. split; [done|].
    destruct (appendMetrics_prev_length _ _ _ E) as (Hlen & mm' & -> & Hn & Hi).
    by repeat split.
  - left. eauto.
Qed.

Lemma ReloadMetrics_prev_keeps_client (c : collector_prev.Collector)
    (cfg : config.MetricsConfig) :
  collector_prev.opcuaClient (collector_prev.ReloadMetrics c cfg)
  = collector_prev.opcuaClient c /\
  collector_prev.ServerConfig (collector_prev.ReloadMetrics c cfg)
  = collector_prev.ServerConfig c /\
  collector_prev.Logger (collector_prev.ReloadMetrics c cfg)
  = collector_prev.Logger c.
Proof.
  unfold collector_prev.ReloadMetrics.
  by destruct (loadMetricsCache_prev_old_or_new c cfg) as [[err ->] | (mm & -> & _)].
Qed.

End PrevProperties.

(** In that text the check of the token type has no effect: for the server
    whose best endpoint takes certificates only, validateEndpointConfig
    returns its error for an anonymous client, and clientSecurityOptions
    returns the options with that endpoint all the same. *)
Lemma clientSecurityOptions_drops_validation :
  let cfg := {| client_prev.Endpoint := "opc.tcp://strict";
                client_prev.CertFile := ""; client_prev.KeyFile := "";
                client_prev.Policy := "auto"; client_prev.Mode := "auto";
                client_prev.Auth := "Anonymous";
                client_prev.Username := ""; client_prev.Password := "" |} in
  let best := world.endpointOf "opc.tcp://strict/sign" ua.MessageSecurityModeSign
                world.policyBasic256Sha256 2 [ua.UserTokenTypeCertificate] in
  (exists ee, GetEndpoints "opc.tcp://strict" = inl ee /\
              is_Some (client_prev.validateEndpointConfig ee
                         (ua.SecurityPolicyURI best) (ua.SecurityMode best)
                         ua.UserTokenTypeAnonymous)) /\
  client_prev.clientSecurityOptions cfg
  = Ok (cfg, inl [opcua.SecurityFromEndpoint best ua.UserTokenTypeAnonymous]).
Proof.
  intros cfg best. split; [|reflexivity].
  eexists. split; [reflexivity|]. vm_compute. eauto.
Qed.

(** * Further properties of the code *)

(** ** Package config *)

Section ConfigFacts.
Context {yaml : config.Yaml} {carriers : Carriers} {ext : Externals}.

Lemma validate_from_all_complete (ms : list config.Metric) (i : nat) :
  Forall (fun m => ~ incomplete m) ms -> config.validate_from i ms = None.
Proof.
  intros H. revert i. induction H as [|m ms Hm _ IH]; intros i; [done|].
  simpl. unfold incomplete in Hm.
  destruct (String.eqb_spec (config.Name m) ""); [tauto|].
  destruct (String.eqb_spec (config.Help m) ""); [tauto|].
  destruct (String.eqb_spec (config.NodeID m) ""); [tauto|].
  destruct (String.eqb_spec (config.Type_ m) ""); [tauto|].
  apply IH.
Qed.

(** X1. validate accepts a metrics configuration exactly when its list is
    not empty and every entry has a name, a help text, a node identifier and
    a type. *)
Theorem validate_accepts_iff (mm : config.MetricsConfig) :
  config.validate mm = None <->
  config.Metrics mm <> [] /\ Forall (fun m => ~ incomplete m) (config.Metrics mm).
Proof.
  unfold config.validate. destruct (config.Metrics mm) as [|m ms] eqn:E; simpl.
  - split; [discriminate | intros [H _]; by destruct H].
  - split.
    + intros H. split; [discriminate|].
      by apply (validate_from_complete (m :: ms) 0).
    + intros [_ H]. by apply (validate_from_all_complete (m :: ms) 0).
Qed.

Lemma validate_from_first (pre post : list config.Metric) (m : config.Metric)
    (i : nat) :
  Forall (fun m => ~ incomplete m) pre ->
  incomplete m ->
  config.validate_from i (pre ++ m :: post)
  = Some (errorString ("missing field '" +:+ firstMissing m +:+
                       "' in 'metrics' configuration of metric " +:+
                       Sprint (i + length pre))).
Proof.
  intros Hpre Hm. revert i. induction Hpre as [|p pre Hp _ IH]; intros i.
  - simpl. rewrite Nat.add_0_r. unfold firstMissing, incomplete in *.
    destruct (String.eqb_spec (config.Name m) ""); [done|].
    destruct (String.eqb_spec (config.Help m) ""); [done|].
    destruct (String.eqb_spec (config.NodeID m) ""); [done|].
    destruct (String.eqb_spec (config.Type_ m) ""); [done|]. tauto.
  - cbn [app length config.validate_from]. unfold incomplete in Hp.
    destruct (String.eqb_spec (config.Name p) ""); [tauto|].
    destruct (String.eqb_spec (config.Help p) ""); [tauto|].
    destruct (String.eqb_spec (config.NodeID p) ""); [tauto|].
    destruct (String.eqb_spec (config.Type_ p) ""); [tauto|].
    rewrite (IH (S i)).
    by replace (S i + length pre)%nat with (i + S (length pre))%nat by lia.
Qed.

(** X2. The error of validate is that of the first incomplete entry: it
    carries the index of that entry, counted from zero, and names the first
    of its fields name, help, nodeid ('nodeValue' in the message), type that
    is empty. *)
Theorem validate_reports_first_incomplete (pre post : list config.Metric)
    (m : config.Metric) :
  Forall (fun m => ~ incomplete m) pre ->
  incomplete m ->
  config.validate {| config.Metrics := pre ++ m :: post |}
  = Some (errorString ("missing field '" +:+ firstMissing m +:+
                       "' in 'metrics' configuration of metric " +:+
                       Sprint (length pre))).
Proof.
  intros Hpre Hm. unfold config.validate. simpl.
  destruct (Nat.eqb_spec (length (pre ++ m :: post)) 0) as [H0|_].
  - rewrite length_app in H0. simpl in H0. lia.
  - by rewrite (validate_from_first pre post m 0 Hpre Hm).
Qed.

(** X3. A load that returns no error leaves the server configuration as it
    was, and a metrics configuration that is the one before the load (the
    file could not be found) or one that validate accepts. *)
Theorem load_without_error (c c' : config.Config) (fs : gmap string file)
    (filename : string) :
  config.LoadMetricsConfig c fs filename = (c', None) ->
  config.ServerConfig_ c' = config.ServerConfig_ c /\
  ((c' = c /\ exists msg, ReadFile fs filename = inr msg) \/
   (config.validate (config.MetricsConfig_ c') = None /\
    exists content, fs !! filename = Some (readable content) /\
                    config.Unmarshal content (config.MetricsConfig_ c)
                    = (config.MetricsConfig_ c', None))).
Proof.
  unfold config.LoadMetricsConfig, config.Unserialize. intros H.
  destruct (ReadFile fs filename) as [content|msg] eqn:Hread.
  - destruct (config.Unmarshal content (config.MetricsConfig_ c)) as [mm [e|]] eqn:Hdec;
      [discriminate|].
    destruct (config.validate mm) eqn:Hval; [discriminate|].
    injection H as <-. simpl. split; [done|]. right. split; [done|].
    exists content. split; [|done].
    unfold ReadFile in Hread. destruct (fs !! filename) as [[?|?]|]; congruence.
  - destruct (Contains msg _); [|discriminate]. injection H as <-.
    split; [done|]. left. eauto.
Qed.

(** X4. A file that is there but cannot be read, or that the decoder
    rejects, makes the load return that error without validating; after a
    decoding error the Config object holds what the decoder left in it. *)
Theorem load_errors_before_validation (c : config.Config) (fs : gmap string file)
    (filename : string) :
  (forall why,
      fs !! filename = Some (unreadable why) ->
      Contains ("open " +:+ filename +:+ ": " +:+ why) "no such file or directory" = false ->
      config.LoadMetricsConfig c fs filename
      = (c, Some (errorString ("open " +:+ filename +:+ ": " +:+ why)))) /\
  (forall content mm e,
      fs !! filename = Some (readable content) ->
      config.Unmarshal content (config.MetricsConfig_ c) = (mm, Some e) ->
      config.LoadMetricsConfig c fs filename = (withMetrics c mm, Some e)).
Proof.
  unfold config.LoadMetricsConfig, config.Unserialize, ReadFile. split.
  - intros why -> Hc. cbv beta iota. by rewrite Hc.
  - intros content mm e -> ->. reflexivity.
Qed.

(** X5. A reload whose file decodes but fails validation is answered with
    the error (status 500), and yet the rejected configuration replaces the
    loaded one and the metric cache is rebuilt from it: with an empty list of
    metrics the cache is empty afterwards. *)
Theorem rejected_configuration_is_installed (configPath : string) (r : main.Request)
    (st : main.State) (c : collector.Collector) (content : list Byte.byte)
    (mm : config.MetricsConfig) (e : error) :
  main.Method r = "POST" ->
  main.fs st !! configPath = Some (readable content) ->
  config.Unmarshal content (config.MetricsConfig_ (main.sc st)) = (mm, None) ->
  config.validate mm = Some e ->
  let served := main.reloadConfigHandler configPath false r st c in
  main.httpErrors served
  = [{| main.message := "failed to reload config: %s";
        main.cause := Some e; main.code := 500 |}] /\
  config.MetricsConfig_ (main.sc (main.state served)) = mm /\
  main.metricsCollector served = collector.ReloadMetrics c mm /\
  main.registryCalls served
  = [main.Unregister c; main.Register (collector.ReloadMetrics c mm)] /\
  (config.Metrics mm = [] ->
   collector.opcuaMetricsCache (main.metricsCollector served) = []).
Proof.
  intros Hpost Hfile Hdec Hval. unfold main.reloadConfigHandler.
  rewrite Hpost. simpl.
  unfold main.sendReloadChannel, main.reloadConfig, config.LoadMetricsConfig,
    config.Unserialize, ReadFile.
  rewrite Hfile, Hdec, Hval. simpl. repeat split.
  intros Hempty. unfold collector.ReloadMetrics, collector.loadMetricsCache.
  by rewrite Hempty.
Qed.

End ConfigFacts.

Lemma validate_reports_first_incomplete_witness :
  config.validate
    {| config.Metrics := [world.metricOf "temperature" "ns=2;i=1" ∅;
                          world.metricOf "pressure" "" ∅] |}
  = Some (errorString "missing field 'nodeValue' in 'metrics' configuration of metric 1").
Proof.
  apply (validate_reports_first_incomplete
           [world.metricOf "temperature" "ns=2;i=1" ∅] []
           (world.metricOf "pressure" "" ∅)).
  - repeat constructor. intros [H|[H|[H|H]]]; discriminate H.
  - right. right. left. reflexivity.
Defined.

Lemma load_without_error_witness :
  config.ServerConfig_
    (config.LoadMetricsConfig (main.sc world.loadedState)
       {[ "opcua.yaml" := readable [Byte.x61] ]} "opcua.yaml").1
  = world.serverConfig.
Proof.
  exact (proj1 (load_without_error (main.sc world.loadedState) _
                  {[ "opcua.yaml" := readable [Byte.x61] ]} "opcua.yaml" eq_refl)).
Defined.

Lemma load_errors_before_validation_witness :
  config.LoadMetricsConfig (main.sc world.loadedState)
    {[ "opcua.yaml" := unreadable "permission denied" ]} "opcua.yaml"
  = (main.sc world.loadedState,
     Some (errorString "open opcua.yaml: permission denied")) /\
  config.LoadMetricsConfig (main.sc world.loadedState)
    {[ "opcua.yaml" := readable [Byte.x7a] ]} "opcua.yaml"
  = (main.sc world.loadedState, Some (errorString "yaml: unmarshal errors")).
Proof.
  split.
  - apply (proj1 (load_errors_before_validation (main.sc world.loadedState)
                    {[ "opcua.yaml" := unreadable "permission denied" ]} "opcua.yaml"));
      reflexivity.
  - apply (proj2 (load_errors_before_validation (main.sc world.loadedState)
                    {[ "opcua.yaml" := readable [Byte.x7a] ]} "opcua.yaml")
             [Byte.x7a] world.twoMetrics); reflexivity.
Defined.

Lemma rejected_configuration_is_installed_witness :
  let served :=
    main.reloadConfigHandler "opcua.yaml" false world.post
      {| main.fs := {[ "opcua.yaml" := readable [Byte.x63] ]};
         main.sc := main.sc world.loadedState |}
      world.loadedCollector in
  length (collector.opcuaMetricsCache world.loadedCollector) = 2%nat /\
  main.httpErrors served
  = [{| main.message := "failed to reload config: %s";
        main.cause := Some (errorString "missing field 'metrics' in top configuration");
        main.code := 500 |}] /\
  collector.opcuaMetricsCache (main.metricsCollector served) = [].
Proof.
  intros served. split; [reflexivity|].
  destruct (rejected_configuration_is_installed "opcua.yaml" world.post
              {| main.fs := {[ "opcua.yaml" := readable [Byte.x63] ]};
                 main.sc := main.sc world.loadedState |}
              world.loadedCollector [Byte.x63] {| config.Metrics := [] |}
              (errorString "missing field 'metrics' in top configuration"))
    as (He & _ & _ & _ & Hc); try reflexivity.
  split; [exact He | exact (Hc eq_refl)].
Defined.

(** ** Package client *)

Section ClientFacts.
Context {carriers : Carriers} {ext : Externals}.
Import config ua client.

Lemma levelGe_trans (a b c : EndpointDescription) :
  levelGe a b = true -> levelGe b c = true -> levelGe a c = true.
Proof. unfold levelGe. rewrite !Z.geb_le. lia. Qed.

(** What selectEndpoint returns is in the list and passes the filter. *)
Lemma selectEndpoint_Some (c : ServerConfig) (mode : Z) (policy : string)
    (ee : list EndpointDescription) (ep : EndpointDescription) :
  selectEndpoint c mode policy ee = Some ep ->
  ep ∈ ee /\ keeps c mode policy ep = true.
Proof.
  rewrite selectEndpoint_scan. intros H.
  pose proof (scan_scanned (keeps c mode policy) (comparedGe c)
                (comparedGe_trans c) ee) as Hs.
  rewrite H in Hs. destruct Hs as (l1 & l2 & -> & Hk & _).
  split; [|done]. apply elem_of_app. right. left.
Qed.

Lemma selectEndpoint_None (c : ServerConfig) (mode : Z) (policy : string)
    (ee : list EndpointDescription) :
  (forall e, e ∈ ee -> keeps c mode policy e = false) ->
  selectEndpoint c mode policy ee = None.
Proof.
  intros Hno. destruct (selectEndpoint c mode policy ee) as [ep|] eqn:E; [|done].
  destruct (selectEndpoint_Some _ _ _ _ _ E) as [Hin Hk].
  rewrite (Hno ep Hin) in Hk. discriminate.
Qed.

(** X6. A policy that findEndpoint resolves is the empty string, for "auto",
    or a URI with the security policy prefix; a value that already has the
    prefix is taken as it is, whatever follows the prefix. *)
Theorem resolved_policy_has_prefix (c : ServerConfig) (policy : string) :
  resolvePolicy c = Ok policy ->
  (SecPolicy c = "auto" /\ policy = "") \/
  (SecPolicy c <> "auto" /\ HasPrefix policy SecurityPolicyURIPrefix = true /\
   (HasPrefix (SecPolicy c) SecurityPolicyURIPrefix = true -> policy = SecPolicy c)).
Proof.
  unfold resolvePolicy.
  destruct (String.eqb_spec (SecPolicy c) "auto") as [Ha|Ha];
    [intros [= <-]; by left|].
  destruct (HasPrefix (SecPolicy c) SecurityPolicyURIPrefix) eqn:Hp.
  - intros [= <-]. right. by repeat split.
  - destruct (isPolicyName (SecPolicy c)); [|discriminate].
    intros [= <-]. right. split; [done|]. split; [|discriminate].
    apply prefix_app.
Qed.

(** X7. The endpoint that findEndpoint returns is one of the discovered
    endpoints, advertises the token type of the configured auth mode, and
    meets every constraint that is set: its policy is the resolved policy
    unless -sec-policy is "auto", its mode the resolved mode unless -sec-mode
    is "auto", both as the all-or-nothing rule for none leaves them. *)
Theorem negotiated_endpoint_meets_constraints (c : ServerConfig)
    (ep : EndpointDescription) :
  findEndpoint c = Ok ep ->
  exists ee policy mode utt,
    GetEndpoints (Endpoint c) = inl ee /\ ep ∈ ee /\
    UserTokenTypeFromString (AuthMode c) = Ok utt /\
    (exists t, t ∈ UserIdentityTokens ep /\ TokenType t = utt) /\
    resolvePolicy c = Ok policy /\ resolveMode c = Ok mode /\
    (SecPolicy c <> "auto" -> SecurityPolicyURI ep = (noneForBoth mode policy).2) /\
    (SecMode c <> "auto" -> SecurityMode ep = (noneForBoth mode policy).1).
Proof.
  intros H. destruct (findEndpoint_Ok c ep H)
    as (ee & policy & mode & utt & Hee & Hp & Hm & Hsel & Hutt & Hadv).
  destruct (selectEndpoint_Some _ _ _ _ _ Hsel) as [Hin Hk].
  exists ee, policy, mode, utt. repeat split; try done.
  - unfold advertises in Hadv. apply existsb_exists in Hadv as (t & Ht & Heq).
    exists t. split; [by apply list_elem_of_In | by apply Z.eqb_eq].
  - intros Hne. apply String.eqb_neq in Hne. revert Hk. unfold keeps. rewrite Hne.
    rewrite !andb_false_r. simpl.
    destruct (String.eqb (SecMode c) "auto"); simpl;
      rewrite ?andb_true_iff, ?String.eqb_eq; tauto.
  - intros Hne. apply String.eqb_neq in Hne. revert Hk. unfold keeps. rewrite Hne.
    simpl. destruct (String.eqb (SecPolicy c) "auto"); simpl;
      rewrite ?andb_true_iff, ?Z.eqb_eq; tauto.
Qed.

(** X8. A stronger partial setting is overridden by none: when the mode
    resolves to none and a policy is set, whichever it is, the endpoint
    returned has the none policy; when the policy resolves to none and a mode
    is set, the endpoint returned has the none mode. *)
Theorem none_overrides_the_other_setting (c : ServerConfig)
    (ep : EndpointDescription) :
  findEndpoint c = Ok ep ->
  (resolveMode c = Ok MessageSecurityModeNone -> SecPolicy c <> "auto" ->
   SecurityPolicyURI ep = SecurityPolicyURINone) /\
  (resolvePolicy c = Ok SecurityPolicyURINone -> SecMode c <> "auto" ->
   SecurityMode ep = MessageSecurityModeNone).
Proof.
  intros H. destruct (findEndpoint_Ok c ep H)
    as (ee & policy & mode & utt & _ & Hp & Hm & Hsel & _).
  destruct (selectEndpoint_Some _ _ _ _ _ Hsel) as [_ Hk]. split.
  - intros Hnone Hne. rewrite Hm in Hnone. injection Hnone as ->.
    apply String.eqb_neq in Hne. revert Hk. unfold keeps, noneForBoth. rewrite Hne.
    rewrite !andb_false_r. simpl.
    destruct (String.eqb (SecMode c) "auto"); simpl;
      rewrite ?andb_true_iff, ?String.eqb_eq; tauto.
  - intros Hnone Hne. rewrite Hp in Hnone. injection Hnone as ->.
    apply String.eqb_neq in Hne. revert Hk. unfold keeps, noneForBoth. rewrite Hne.
    rewrite String.eqb_refl, orb_true_r. simpl.
    destruct (String.eqb (SecPolicy c) "auto"); simpl;
      rewrite ?andb_true_iff, ?Z.eqb_eq; tauto.
Qed.

(** X9. The mode is resolved in lower case, but the selection compares
    -sec-mode with "auto" as it is written. A mode that only lowers to
    "auto" ("Auto", "AUTO") resolves to the invalid mode, zero, and counts as
    constrained: unless the policy resolves to none, only endpoints of mode
    zero pass, so with none of these discovered findEndpoint ends in l.Fatal
    with the no-suitable-endpoint message. *)
Theorem auto_in_other_case_selects_nothing (c : ServerConfig)
    (ee : list EndpointDescription) (policy : string) :
  ToLower (SecMode c) = "auto" ->
  SecMode c <> "auto" ->
  GetEndpoints (Endpoint c) = inl ee ->
  resolvePolicy c = Ok policy ->
  policy <> SecurityPolicyURINone ->
  (forall e, e ∈ ee -> SecurityMode e <> MessageSecurityModeInvalid) ->
  resolveMode c = Ok MessageSecurityModeInvalid /\
  selectEndpoint c MessageSecurityModeInvalid policy ee = None /\
  findEndpoint c = Fatal noSuitableEndpoint [].
Proof.
  intros Hlower Hne Hee Hp Hpol Hmodes.
  assert (Hm : resolveMode c = Ok MessageSecurityModeInvalid).
  { unfold resolveMode. by rewrite Hlower. }
  assert (Hsel : selectEndpoint c MessageSecurityModeInvalid policy ee = None).
  { apply selectEndpoint_None. intros e He. unfold keeps.
    apply String.eqb_neq in Hne. rewrite Hne. simpl.
    apply Hmodes, Z.eqb_neq in He. rewrite He.
    destruct (String.eqb (SecPolicy c) "auto"); simpl; [done|].
    by rewrite andb_false_r. }
  split; [done|]. split; [done|].
  rewrite (findEndpoint_resolved c ee policy _ Hee Hp Hm).
  unfold noneForBoth. apply String.eqb_neq in Hpol. rewrite Hpol. simpl.
  unfold selectAndCheck. by rewrite Hsel.
Qed.

(** X10. securityOptions compares -sec-mode with "Sign" and "SignAndEncrypt"
    as written: a mode in another case that resolves to sign or to
    sign-and-encrypt gets no private key and no certificate option,
    whatever certificate was loaded. *)
Theorem signing_mode_in_other_case_gets_no_key (c : ServerConfig)
    (e : EndpointDescription) (crt : tls.Certificate_) :
  ToLower (SecMode c) = "sign" \/ ToLower (SecMode c) = "signandencrypt" ->
  SecMode c <> "Sign" -> SecMode c <> "SignAndEncrypt" ->
  (resolveMode c = Ok MessageSecurityModeSign \/
   resolveMode c = Ok MessageSecurityModeSignAndEncrypt) /\
  securityOptions c e crt = Ok [].
Proof.
  intros Hlower Hs Hse. split.
  - unfold resolveMode. destruct Hlower as [-> | ->]; [by left | by right].
  - unfold securityOptions. apply String.eqb_neq in Hs, Hse. by rewrite Hs, Hse.
Qed.

(** X11. A signing mode without a certificate pair is no error of its own:
    with -sec-mode "Sign" or "SignAndEncrypt" and the certificate path or the
    key path empty, a negotiation that succeeds is followed by a run-time
    panic, in authenticationOptions for auth mode Certificate (the index into
    an empty certificate chain) and else in securityOptions (the type
    assertion on a nil key). *)
Theorem signing_without_certificate_panics (c : ServerConfig)
    (e : EndpointDescription) (utt : Z) :
  SecMode c = "Sign" \/ SecMode c = "SignAndEncrypt" ->
  CertPath c = "" \/ KeyPath c = "" ->
  findEndpoint c = Ok e ->
  UserTokenTypeFromString (AuthMode c) = Ok utt ->
  loadCertificate c = Ok tls.zero /\
  (AuthMode c = "Certificate" ->
   NewClientFromServerConfig c = Panic "index out of range [0] with length 0") /\
  (AuthMode c <> "Certificate" ->
   NewClientFromServerConfig c
   = Panic "interface conversion: interface is not *rsa.PrivateKey").
Proof.
  intros Hmode Hpath He Hutt.
  assert (Hcrt : loadCertificate c = Ok tls.zero).
  { unfold loadCertificate. destruct Hpath as [-> | ->]; simpl; [done|].
    by rewrite andb_false_r. }
  split; [done|]. unfold NewClientFromServerConfig. rewrite He, Hcrt. simpl.
  unfold authenticationOptions. split.
  - intros ->. reflexivity.
  - intros Hne. apply String.eqb_neq in Hne. rewrite Hne, Hutt.
    assert (Hsec : securityOptions c e tls.zero
                   = Panic "interface conversion: interface is not *rsa.PrivateKey").
    { unfold securityOptions. destruct Hmode as [-> | ->]; reflexivity. }
    destruct (String.eqb (AuthMode c) "UserName"); simpl; by rewrite Hsec.
Qed.

(** X12. A certificate that loadCertificate returns for a configuration
    with both paths set has an RSA key: with at least one certificate in its
    chain, neither authenticationOptions nor securityOptions panics on it. *)
Theorem loaded_certificate_is_usable (c : ServerConfig) (crt : tls.Certificate_)
    (e : EndpointDescription) (utt : Z) :
  CertPath c <> "" -> KeyPath c <> "" ->
  loadCertificate c = Ok crt ->
  UserTokenTypeFromString (AuthMode c) = Ok utt ->
  tls.Certificate crt <> [] ->
  (exists der, tls.PrivateKey crt = tls.rsaPrivateKey der) /\
  (exists o, authenticationOptions c e crt = Ok o) /\
  (exists o, securityOptions c e crt = Ok o).
Proof.
  intros Hc Hk Hload Hutt Hchain. unfold loadCertificate in Hload.
  apply String.eqb_neq in Hc, Hk. rewrite Hc, Hk in Hload. simpl in Hload.
  destruct (LoadX509KeyPair (CertPath c) (KeyPath c)) as [crt'|err]; [|discriminate].
  destruct (tls.PrivateKey crt') as [|der|der] eqn:Hkey; try discriminate.
  injection Hload as ->.
  destruct (tls.Certificate crt) as [|cert chain] eqn:Hcert; [done|].
  split; [eauto|]. split.
  - unfold authenticationOptions, firstCertificate. rewrite Hcert, Hutt.
    destruct (String.eqb (AuthMode c) "Certificate"); simpl; [eauto|].
    destruct (String.eqb (AuthMode c) "UserName"); simpl; eauto.
  - unfold securityOptions, rsaKey, firstCertificate. rewrite Hkey, Hcert.
    destruct (_ || _); simpl; eauto.
Qed.

(** X13. Every client that NewClientFromServerConfig builds is for the
    configured endpoint URL and starts with the fixed session options, a
    lifetime of ten minutes, a request timeout of five seconds and automatic
    reconnection; its security option is for the endpoint that findEndpoint
    returned. *)
Theorem client_has_fixed_session_options (c : ServerConfig) (cl : opcua.Client) :
  NewClientFromServerConfig c = Ok cl ->
  opcua.endpoint cl = Endpoint c /\
  take 3 (opcua.opts cl)
  = [opcua.Lifetime 600000000000; opcua.RequestTimeout 5000000000;
     opcua.AutoReconnect true] /\
  exists e utt,
    findEndpoint c = Ok e /\
    opcua.SecurityFromEndpoint e utt ∈ opcua.opts cl.
Proof.
  unfold NewClientFromServerConfig. intros H.
  apply bind_Ok in H as (e & He & H).
  apply bind_Ok in H as (crt & Hcrt & H).
  apply bind_Ok in H as (a & Ha & H).
  apply bind_Ok in H as (s & Hs & H). injection H as <-. simpl.
  split; [done|]. split; [done|].
  unfold authenticationOptions in Ha.
  apply bind_Ok in Ha as (o & Ho & Ha).
  apply bind_Ok in Ha as (utt & Hutt & Ha). injection Ha as <-.
  exists e, utt. split; [done|].
  do 3 right. apply elem_of_app. left. apply elem_of_app. right. left.
Qed.

End ClientFacts.

Lemma resolved_policy_has_prefix_witness :
  HasPrefix ua.SecurityPolicyURINone ua.SecurityPolicyURIPrefix = true.
Proof.
  destruct (resolved_policy_has_prefix (world.server "opc.tcp://plain" "Anonymous" "")
              ua.SecurityPolicyURINone eq_refl) as [[H _]|[_ [H _]]];
    [discriminate H | exact H].
Defined.

Lemma negotiated_endpoint_meets_constraints_witness :
  let c := world.secured "opc.tcp://example" "Sign" "auto" in
  exists ee policy mode utt,
    GetEndpoints (config.Endpoint c) = inl ee /\ world.sign3 ∈ ee /\
    UserTokenTypeFromString (config.AuthMode c) = Ok utt /\
    (exists t, t ∈ ua.UserIdentityTokens world.sign3 /\ ua.TokenType t = utt) /\
    client.resolvePolicy c = Ok policy /\ client.resolveMode c = Ok mode /\
    (config.SecPolicy c <> "auto" ->
     ua.SecurityPolicyURI world.sign3 = (client.noneForBoth mode policy).2) /\
    (config.SecMode c <> "auto" ->
     ua.SecurityMode world.sign3 = (client.noneForBoth mode policy).1).
Proof.
  exact (negotiated_endpoint_meets_constraints
           (world.secured "opc.tcp://example" "Sign" "auto") world.sign3 eq_refl).
Defined.

Lemma none_overrides_the_other_setting_witness :
  client.findEndpoint (world.secured "opc.tcp://example" "none" "Basic256Sha256")
  = Ok world.none9 /\
  ua.SecurityPolicyURI world.none9 = ua.SecurityPolicyURINone.
Proof.
  split; [reflexivity|].
  destruct (none_overrides_the_other_setting
              (world.secured "opc.tcp://example" "none" "Basic256Sha256")
              world.none9) as [H _]; [reflexivity|].
  apply H; [reflexivity | discriminate].
Defined.

Lemma auto_in_other_case_selects_nothing_witness :
  client.findEndpoint (world.secured "opc.tcp://example" "auto" "auto") = Ok world.sign3 /\
  client.findEndpoint (world.secured "opc.tcp://example" "Auto" "auto")
  = Fatal client.noSuitableEndpoint [].
Proof.
  split; [reflexivity|].
  apply (auto_in_other_case_selects_nothing
           (world.secured "opc.tcp://example" "Auto" "auto")
           [world.sign1; world.sign3; world.none9] "");
    try reflexivity; try discriminate.
  intros e He. repeat (apply elem_of_cons in He as [->|He]; [discriminate|]).
  by apply elem_of_nil in He.
Defined.

Lemma signing_mode_in_other_case_gets_no_key_witness :
  client.resolveMode (world.secured "opc.tcp://example" "sign" "auto")
  = Ok ua.MessageSecurityModeSign /\
  client.securityOptions (world.secured "opc.tcp://example" "sign" "auto")
    world.sign3 world.keyPair = Ok [].
Proof.
  destruct (signing_mode_in_other_case_gets_no_key
              (world.secured "opc.tcp://example" "sign" "auto")
              world.sign3 world.keyPair) as [H1 H2];
    [left; reflexivity | discriminate | discriminate |].
  split; [reflexivity | exact H2].
Defined.

Lemma signing_without_certificate_panics_witness :
  client.NewClientFromServerConfig (world.secured "opc.tcp://example" "Sign" "auto")
  = Panic "interface conversion: interface is not *rsa.PrivateKey".
Proof.
  destruct (signing_without_certificate_panics
              (world.secured "opc.tcp://example" "Sign" "auto")
              world.sign3 ua.UserTokenTypeAnonymous) as (_ & _ & H);
    [left; reflexivity | left; reflexivity | reflexivity | reflexivity |].
  apply H. discriminate.
Defined.

Lemma loaded_certificate_is_usable_witness :
  let c := {| config.Endpoint := "opc.tcp://example";
              config.CertPath := "cert.pem"; config.KeyPath := "key.pem";
              config.SecPolicy := "auto"; config.SecMode := "Sign";
              config.AuthMode := "Certificate";
              config.Username := ""; config.Password := "" |} in
  (exists o, @client.authenticationOptions _ world.extWithKeys c world.sign3
               world.keyPair = Ok o) /\
  (exists o, client.securityOptions c world.sign3 world.keyPair = Ok o).
Proof.
  intros c.
  destruct (@loaded_certificate_is_usable _ world.extWithKeys c world.keyPair
              world.sign3 ua.UserTokenTypeCertificate) as (_ & Ha & Hs);
    [discriminate | discriminate | reflexivity | reflexivity | discriminate |].
  split; [exact Ha | exact Hs].
Defined.

Lemma client_has_fixed_session_options_witness :
  let c := world.server "opc.tcp://plain" "Anonymous" "" in
  exists cl,
    client.NewClientFromServerConfig c = Ok cl /\
    opcua.endpoint cl = "opc.tcp://plain" /\
    take 3 (opcua.opts cl)
    = [opcua.Lifetime 600000000000; opcua.RequestTimeout 5000000000;
       opcua.AutoReconnect true].
Proof.
  intros c.
  destruct (client.NewClientFromServerConfig c) as [cl| |] eqn:E;
    [|vm_compute in E; discriminate E..].
  exists cl. split; [reflexivity|].
  destruct (client_has_fixed_session_options c cl E) as (H1 & H2 & _).
  split; [exact H1 | exact H2].
Defined.

(** ** Package collector *)

Section CollectorFacts.
Context {carriers : Carriers} {ext : Externals}.
Import collector.

(** X14. Where the run time visits every entry of a map once, the label
    names and the label values that newMetric keeps line up: the descriptor
    has the names, there is one name and one value per label, no name comes
    twice, and the value at a position is the one the map has for the name at
    that position. *)
Theorem labels_line_up (name help : string) (typ : prometheus.ValueType)
    (labels : gmap string string) :
  rangeMap labels ≡ₚ map_to_list labels ->
  let p := properties (newMetric name help typ labels) in
  prometheus.variableLabels (desc p) = labelsKeys p /\
  length (labelsKeys p) = size labels /\
  length (labelsValues p) = size labels /\
  NoDup (labelsKeys p) /\
  forall (i : nat) (k v : string),
    labelsKeys p !! i = Some k -> labelsValues p !! i = Some v ->
    collector.labels p !! k = Some v.
Proof.
  intros Hperm. simpl. split; [done|].
  split; [by rewrite length_fmap, Hperm, length_map_to_list|].
  split; [by rewrite length_fmap, Hperm, length_map_to_list|].
  split; [rewrite Hperm; apply NoDup_fst_map_to_list|].
  intros i k v Hk Hv. rewrite list_lookup_fmap in Hk, Hv.
  destruct (rangeMap labels !! i) as [[k' v']|] eqn:E; [|discriminate].
  simpl in Hk, Hv. injection Hk as ->. injection Hv as ->.
  apply elem_of_map_to_list. rewrite <- Hperm. by eapply list_elem_of_lookup_2.
Qed.

Lemma appendMetrics_first_bad (pre post : list config.Metric) (m : config.Metric)
    (err : error) (acc : list opcuaMetric) :
  Forall parses pre ->
  ParseNodeID (config.NodeID m) = inr err ->
  appendMetrics (pre ++ m :: post) acc = inr (errInvalidNodeID err).
Proof.
  intros Hpre Hm. revert acc. induction Hpre as [|p pre [id Hid] _ IH]; intros acc.
  - simpl. by rewrite Hm.
  - cbn [app appendMetrics]. rewrite Hid. apply IH.
Qed.

(** X15. The cache build stops at the first node identifier that does not
    parse: the error it returns wraps the parse error of that entry, whatever
    comes after it, and the collector stays as it was. *)
Theorem cache_build_stops_at_first_bad_node (c : Collector)
    (pre post : list config.Metric) (m : config.Metric) (err : error) :
  Forall parses pre ->
  ParseNodeID (config.NodeID m) = inr err ->
  loadMetricsCache c {| config.Metrics := pre ++ m :: post |}
  = (c, Some (errInvalidNodeID err)) /\
  ReloadMetrics c {| config.Metrics := pre ++ m :: post |} = c.
Proof.
  intros Hpre Hm. unfold ReloadMetrics, loadMetricsCache. simpl.
  by rewrite (appendMetrics_first_bad pre post m err [] Hpre Hm).
Qed.

(** X16. After a reload whose node identifiers all parse, the read request
    asks for the configured nodes in the order of the configuration, one per
    entry, with a maximal age of 2000 and both timestamps. *)
Theorem read_request_follows_configuration (c : Collector)
    (cfg : config.MetricsConfig) :
  Forall parses (config.Metrics cfg) ->
  let req := readRequest (ReloadMetrics c cfg) in
  MaxAge req = 2000 /\
  TimestampsToReturn req = TimestampsToReturnBoth /\
  length (NodesToRead req) = length (config.Metrics cfg) /\
  Forall2 (fun m rv => ParseNodeID (config.NodeID m) = inl (ReadValueID_NodeID rv))
    (config.Metrics cfg) (NodesToRead req).
Proof.
  intros Hall. unfold ReloadMetrics, loadMetricsCache.
  destruct (appendMetrics_all_parse _ [] Hall) as (mm & -> & Hmm). simpl.
  assert (H : Forall2 (fun m rv => ParseNodeID (config.NodeID m)
                                   = inl (ReadValueID_NodeID rv))
                (config.Metrics cfg) (map nodeReadValueID mm)).
  { apply Forall2_fmap_r. eapply Forall2_impl; [exact Hmm|].
    intros m e (id & Hid & ->). exact Hid. }
  repeat split; [|exact H]. symmetry. by eapply Forall2_length.
Qed.

Lemma collectMetrics_sent (c : Collector) (resp : ReadResponse)
    (cache : list opcuaMetric) (idx : nat) (sent : list Metric) :
  collectMetrics c resp idx cache = Ok sent ->
  length sent = length cache /\
  forall d t v l, ConstMetric d t v l ∈ sent ->
                  exists m, m ∈ cache /\ d = desc (properties (metric_ m)).
Proof.
  revert idx sent. induction cache as [|m cache IH]; intros idx sent H.
  - injection H as <-. split; [done|]. intros d t v l Hin. by apply elem_of_nil in Hin.
  - cbn [collectMetrics] in H. apply bind_Ok in H as (r & Hr & H).
    apply bind_Ok in H as (rest & Hrest & H). injection H as <-.
    destruct (IH _ _ Hrest) as [Hlen Hdesc]. split; [simpl; by rewrite Hlen|].
    intros d t v l Hin. apply elem_of_cons in Hin as [Heq|Hin].
    + exists m. split; [left|]. destruct r as [value|err]; [|discriminate].
      unfold getMetricWithValue, NewConstMetric in Heq.
      destruct (constMetricError _ _); [discriminate|]. by injection Heq.
    + destruct (Hdesc d t v l Hin) as (m' & Hm' & ->). exists m'. split; [by right|done].
Qed.

(** X17. Every normal sample that Collect sends has a descriptor that
    Describe sends for the same collector; the error samples are the only
    ones with the descriptor "opcua_error", which Describe does not send. *)
Theorem normal_samples_are_described (c : Collector)
    (read : ReadRequest -> ReadResponse + error) (clock : Clock)
    (samples : list Metric) :
  Collect c read clock = Ok samples ->
  forall d t v l, ConstMetric d t v l ∈ samples -> d ∈ Describe c.
Proof.
  unfold Collect, scrapeTarget. intros H d t v l Hin.
  destruct (read (readRequest c)) as [resp|err].
  - apply bind_Ok in H as (sent & Hsent & H). injection H as <-.
    unfold Describe. apply elem_of_app in Hin as [Hin|Hin]; apply elem_of_app.
    + left. destruct (collectMetrics_sent _ _ _ _ _ Hsent) as [_ Hdesc].
      destruct (Hdesc d t v l Hin) as (m & Hm & ->).
      apply list_elem_of_In, in_map_iff. exists m. split; [done|].
      by apply list_elem_of_In.
    + right. apply list_elem_of_In, in_map_iff in Hin as (m & Heq & Hm).
      unfold getMetricWithValue, NewConstMetric in Heq.
      destruct (constMetricError _ _); [discriminate|]. injection Heq as <- _ _ _.
      apply list_elem_of_In, in_map_iff. exists m. split; [done|]. exact Hm.
  - injection H as <-. apply list_elem_of_singleton in Hin. discriminate.
Qed.

Lemma collectMetrics_short (c : Collector) (resp : ReadResponse)
    (cache : list opcuaMetric) (idx : nat) :
  (idx <= length (Results resp))%nat ->
  (length (Results resp) < idx + length cache)%nat ->
  collectMetrics c resp idx cache = Panic "index out of range".
Proof.
  revert idx. induction cache as [|m cache IH]; intros idx Hidx Hlen.
  - simpl in Hlen. lia.
  - cbn [collectMetrics]. unfold getOpcuaValueFromIndex.
    destruct (Results resp !! idx) as [r|] eqn:Hr; [|done].
    apply lookup_lt_Some in Hr.
    rewrite (IH (S idx)) by (simpl in Hlen; lia).
    by destruct (negb (Status r =? ua.StatusOK)).
Qed.

(** X18. A read that succeeds with fewer results than the cache has entries
    makes Collect panic on the index, whatever the results are. *)
Theorem short_response_panics (c : Collector)
    (read : ReadRequest -> ReadResponse + error) (clock : Clock)
    (resp : ReadResponse) :
  read (readRequest c) = inl resp ->
  (length (Results resp) < length (opcuaMetricsCache c))%nat ->
  Collect c read clock = Panic "index out of range".
Proof.
  intros Hread Hlen. unfold Collect, scrapeTarget. rewrite Hread.
  by rewrite collectMetrics_short by (simpl; lia).
Qed.

(** X19. A read that succeeds with more results than the cache has entries
    gives one sample per entry, from the results at the entries' positions;
    the results beyond the cache are not looked at. *)
Theorem extra_results_are_ignored (c : Collector)
    (read : ReadRequest -> ReadResponse + error) (clock : Clock)
    (resp : ReadResponse) :
  read (readRequest c) = inl resp ->
  (length (opcuaMetricsCache c) <= length (Results resp))%nat ->
  Collect c read clock
  = Ok (perMetricSamples c resp ++ instrumentationSamples c clock resp) /\
  length (perMetricSamples c resp) = length (opcuaMetricsCache c) /\
  perMetricSamples c resp
  = perMetricSamples c
      {| Results := take (length (opcuaMetricsCache c)) (Results resp) |}.
Proof.
  intros Hread Hlen. unfold Collect, scrapeTarget. rewrite Hread.
  rewrite collectMetrics_zip by (simpl; lia). rewrite drop_0. simpl.
  unfold perMetricSamples, instrumentationSamples. simpl.
  split; [by destruct clock|]. split; [rewrite length_zip_with; lia|].
  by rewrite zip_with_take_r.
Qed.

(** X20. For a collector with the instrumentation metrics of NewCollector,
    where the metric constructor accepts the four instrumentation
    descriptors without labels, Collect ends a round whose read succeeded
    with four gauge samples, in this order: the walk duration, the number of
    results in the response (not the number of cache entries), the scrape
    duration, and the read duration. *)
Theorem instrumentation_samples (c : Collector)
    (read : ReadRequest -> ReadResponse + error) (clock : Clock)
    (resp : ReadResponse) :
  rangeMap ∅ = [] ->
  Forall (fun d => constMetricError d [] = None)
    [prometheus.NewDesc "opcua_scrape_walk_duration_seconds"
       "Time OPCUA walk/bulkwalk took." [];
     prometheus.NewDesc "opcua_scrape_resp_returned"
       "RESPs returned from walk." [];
     prometheus.NewDesc "opcua_scrape_duration_seconds"
       "Total OPCUA time scrape took (walk and processing)." [];
     prometheus.NewDesc "opcua_client_read_duration_seconds"
       "Time OPCUA to reconnect took." []] ->
  statsMetricsCache c = statsMetrics ->
  read (readRequest c) = inl resp ->
  (length (opcuaMetricsCache c) <= length (Results resp))%nat ->
  Collect c read clock
  = Ok (perMetricSamples c resp ++
        [ConstMetric
           (prometheus.NewDesc "opcua_scrape_walk_duration_seconds"
              "Time OPCUA walk/bulkwalk took." [])
           prometheus.GaugeValue (walkDuration clock) [];
         ConstMetric
           (prometheus.NewDesc "opcua_scrape_resp_returned"
              "RESPs returned from walk." [])
           prometheus.GaugeValue
           (float64_of_int (Z.of_nat (length (Results resp)))) [];
         ConstMetric
           (prometheus.NewDesc "opcua_scrape_duration_seconds"
              "Total OPCUA time scrape took (walk and processing)." [])
           prometheus.GaugeValue (scrapeDuration clock) [];
         ConstMetric
           (prometheus.NewDesc "opcua_client_read_duration_seconds"
              "Time OPCUA to reconnect took." [])
           prometheus.GaugeValue (readDuration clock) []]).
Proof.
  intros Hrange Hacc Hstats Hread Hlen.
  apply Forall_cons in Hacc as [Hwalk Hacc].
  apply Forall_cons in Hacc as [Hresp Hacc].
  apply Forall_cons in Hacc as [Hscrape Hacc].
  apply Forall_cons in Hacc as [Hclient _].
  unfold Collect, scrapeTarget. rewrite Hread.
  rewrite collectMetrics_zip by (simpl; lia). rewrite drop_0. simpl.
  rewrite Hstats. unfold statsMetrics, newMetric. rewrite Hrange. simpl.
  unfold getMetricWithValue, NewConstMetric. simpl.
  rewrite Hwalk, Hresp, Hscrape, Hclient. reflexivity.
Qed.

(** X22. NewCollector does not look at the error of the cache build: with
    the client built and connected it returns a collector with that client
    and the four instrumentation metrics, whose metric cache has the entries
    of the configuration when all node identifiers parse and is empty when
    one does not. A failed connection ends in l.Fatal. *)
Theorem collector_starts_whatever_the_metrics (cfg : CollectorConfig)
    (cl : opcua.Client) :
  client.NewClientFromServerConfig (config.ServerConfig_ (Config cfg)) = Ok cl ->
  (forall err, Connect cl = Some err ->
               NewCollector cfg = Fatal "cannot connect opcua client %v" [argError err]) /\
  (Connect cl = None ->
   exists c,
     NewCollector cfg = Ok c /\
     opcuaClient c = cl /\
     ServerConfig c = config.ServerConfig_ (Config cfg) /\
     statsMetricsCache c = statsMetrics /\
     (Forall parses (config.Metrics (config.MetricsConfig_ (Config cfg))) ->
      Forall2 builtFrom (config.Metrics (config.MetricsConfig_ (Config cfg)))
        (opcuaMetricsCache c)) /\
     (Exists (fun m => ~ parses m)
        (config.Metrics (config.MetricsConfig_ (Config cfg))) ->
      opcuaMetricsCache c = [])).
Proof.
  intros Hcl. unfold NewCollector. rewrite Hcl. simpl. split.
  - by intros err ->.
  - intros ->. eexists. split; [reflexivity|]. simpl.
    unfold ReloadMetrics, loadMetricsCache. simpl.
    repeat split.
    + by destruct (appendMetrics _ []).
    + by destruct (appendMetrics _ []).
    + by destruct (appendMetrics _ []).
    + intros Hall. by destruct (appendMetrics_all_parse _ [] Hall) as (mm & -> & H).
    + intros Hbad. by destruct (appendMetrics_one_fails _ [] Hbad) as [err ->].
Qed.

End CollectorFacts.

Lemma labels_line_up_witness :
  let p := collector.properties
             (collector.newMetric "temperature" "help" prometheus.GaugeValue
                {[ "site" := "MLK" ]}) in
  prometheus.variableLabels (collector.desc p) = collector.labelsKeys p /\
  length (collector.labelsKeys p) = size ({[ "site" := "MLK" ]} : gmap string string) /\
  length (collector.labelsValues p) = size ({[ "site" := "MLK" ]} : gmap string string) /\
  NoDup (collector.labelsKeys p) /\
  forall (i : nat) (k v : string),
    collector.labelsKeys p !! i = Some k -> collector.labelsValues p !! i = Some v ->
    collector.labels p !! k = Some v.
Proof.
  apply (labels_line_up "temperature" "help" prometheus.GaugeValue
           {[ "site" := "MLK" ]}).
  reflexivity.
Defined.

Lemma cache_build_stops_at_first_bad_node_witness :
  collector.ReloadMetrics world.loadedCollector
    {| config.Metrics := [world.metricOf "temperature" "ns=2;i=10853" ∅;
                          world.metricOf "pressure" "10852" ∅;
                          world.metricOf "flow" "ns=2;i=10851" ∅] |}
  = world.loadedCollector.
Proof.
  apply (cache_build_stops_at_first_bad_node world.loadedCollector
           [world.metricOf "temperature" "ns=2;i=10853" ∅]
           [world.metricOf "flow" "ns=2;i=10851" ∅]
           (world.metricOf "pressure" "10852" ∅)
           (errorString "invalid node id")).
  - repeat constructor. eexists. reflexivity.
  - reflexivity.
Defined.

Lemma read_request_follows_configuration_witness :
  NodesToRead (collector.readRequest
                 (collector.ReloadMetrics world.emptyCollector world.twoMetrics))
  = [{| ReadValueID_NodeID := "ns=2;i=10853" |};
     {| ReadValueID_NodeID := "ns=2;i=10852" |}] /\
  length (NodesToRead (collector.readRequest
                         (collector.ReloadMetrics world.emptyCollector world.twoMetrics)))
  = 2%nat.
Proof.
  split; [reflexivity|].
  apply (read_request_follows_configuration world.emptyCollector world.twoMetrics).
  repeat constructor; eexists; reflexivity.
Defined.

Lemma normal_samples_are_described_witness :
  prometheus.NewDesc "temperature" "help" []
  ∈ collector.Describe world.loadedCollector.
Proof.
  assert (E : collector.Collect world.loadedCollector
                (world.answering [world.good 21; world.bad]) world.clock
              = Ok (perMetricSamples world.loadedCollector
                      {| Results := [world.good 21; world.bad] |}
                    ++ instrumentationSamples world.loadedCollector world.clock
                         {| Results := [world.good 21; world.bad] |}))
    by reflexivity.
  apply (normal_samples_are_described _ _ _ _ E
           (prometheus.NewDesc "temperature" "help" []) prometheus.GaugeValue 21 []).
  left.
Defined.

Lemma short_response_panics_witness :
  collector.Collect world.loadedCollector (world.answering [world.good 21]) world.clock
  = Panic "index out of range".
Proof.
  apply (short_response_panics world.loadedCollector
           (world.answering [world.good 21]) world.clock
           {| Results := [world.good 21] |}); [reflexivity|].
  vm_compute. lia.
Defined.

Lemma extra_results_are_ignored_witness :
  let resp := {| Results := [world.good 1; world.good 2; world.good 3] |} in
  length (perMetricSamples world.loadedCollector resp) = 2%nat /\
  perMetricSamples world.loadedCollector resp
  = perMetricSamples world.loadedCollector
      {| Results := [world.good 1; world.good 2] |}.
Proof.
  intros resp.
  destruct (extra_results_are_ignored world.loadedCollector
              (world.answering (Results resp)) world.clock resp) as (_ & Hlen & Heq);
    [reflexivity | vm_compute; lia |].
  split; [exact Hlen | exact Heq].
Defined.

Lemma instrumentation_samples_witness :
  let resp := {| Results := [world.good 1; world.good 2; world.good 3] |} in
  collector.Collect world.loadedCollector (world.answering (Results resp)) world.clock
  = Ok (perMetricSamples world.loadedCollector resp ++
        [ConstMetric
           (prometheus.NewDesc "opcua_scrape_walk_duration_seconds"
              "Time OPCUA walk/bulkwalk took." [])
           prometheus.GaugeValue 2 [];
         ConstMetric
           (prometheus.NewDesc "opcua_scrape_resp_returned"
              "RESPs returned from walk." [])
           prometheus.GaugeValue 3 [];
         ConstMetric
           (prometheus.NewDesc "opcua_scrape_duration_seconds"
              "Total OPCUA time scrape took (walk and processing)." [])
           prometheus.GaugeValue 3 [];
         ConstMetric
           (prometheus.NewDesc "opcua_client_read_duration_seconds"
              "Time OPCUA to reconnect took." [])
           prometheus.GaugeValue 1 []]).
Proof.
  intros resp.
  assert (H1 : rangeMap (∅ : gmap string string) = []) by reflexivity.
  assert (H2 : Forall (fun d => constMetricError d [] = None)
                 [prometheus.NewDesc "opcua_scrape_walk_duration_seconds"
                    "Time OPCUA walk/bulkwalk took." [];
                  prometheus.NewDesc "opcua_scrape_resp_returned"
                    "RESPs returned from walk." [];
                  prometheus.NewDesc "opcua_scrape_duration_seconds"
                    "Total OPCUA time scrape took (walk and processing)." [];
                  prometheus.NewDesc "opcua_client_read_duration_seconds"
                    "Time OPCUA to reconnect took." []])
    by (repeat constructor).
  assert (H3 : (length (collector.opcuaMetricsCache world.loadedCollector)
                <= length (Results resp))%nat) by (vm_compute; lia).
  exact (instrumentation_samples world.loadedCollector
           (world.answering (Results resp)) world.clock resp H1 H2 eq_refl eq_refl H3).
Defined.

Lemma collector_starts_whatever_the_metrics_witness :
  let cfg := {| collector.Config :=
                  {| config.ServerConfig_ := world.serverConfig;
                     config.MetricsConfig_ :=
                       {| config.Metrics := [world.metricOf "temperature" "10853" ∅] |} |};
                collector.CollectorConfig_Logger := world.logger |} in
  exists c,
    collector.NewCollector cfg = Ok c /\
    collector.statsMetricsCache c = collector.statsMetrics /\
    collector.opcuaMetricsCache c = [].
Proof.
  intros cfg.
  destruct (client.NewClientFromServerConfig
              (config.ServerConfig_ (collector.Config cfg))) as [cl| |] eqn:E;
    [|vm_compute in E; discriminate E..].
  destruct (collector_starts_whatever_the_metrics cfg cl E) as [_ H].
  destruct H as (c & Hc & _ & _ & Hs & _ & Hbad); [reflexivity|].
  exists c. split; [exact Hc|]. split; [exact Hs|].
  apply Hbad. apply Exists_cons_hd. intros [id Hid]. discriminate Hid.
Defined.

(** ** Package main *)

Section MainFacts.
Context {carriers : Carriers} {ext : Externals} {yaml : config.Yaml}.

(** X23. A request that is not a POST, and an update whose body cannot be
    read, are answered with status 400 and change nothing: not the files, not
    the configuration, not the collector, and the registry is not called. *)
Theorem refused_requests_change_nothing (configPath : string) (updateFromBody : bool)
    (r : main.Request) (st : main.State) (c : collector.Collector) :
  (main.Method r <> "POST" ->
   main.reloadConfigHandler configPath updateFromBody r st c
   = {| main.state := st; main.metricsCollector := c;
        main.httpErrors := [{| main.message := "POST method expected";
                               main.cause := None; main.code := 400 |}];
        main.registryCalls := [] |}) /\
  (forall err,
      main.Method r = "POST" -> updateFromBody = true -> main.Body r = inr err ->
      main.reloadConfigHandler configPath updateFromBody r st c
      = {| main.state := st; main.metricsCollector := c;
           main.httpErrors := [{| main.message := "can't read body";
                                  main.cause := None; main.code := 400 |}];
           main.registryCalls := [] |}).
Proof.
  unfold main.reloadConfigHandler. split.
  - intros Hne. apply String.eqb_neq in Hne. by rewrite Hne.
  - intros err -> -> ->. reflexivity.
Qed.


(** X25. A reload whose file decodes, passes validation and has node
    identifiers that all parse is answered without error; it installs the
    decoded configuration and a cache with one entry per metric, in order,
    and unregisters the collector as it was before registering it as it is
    after. *)
Theorem accepted_reload (configPath : string) (r : main.Request) (st : main.State)
    (c : collector.Collector) (content : list Byte.byte) (mm : config.MetricsConfig) :
  main.Method r = "POST" ->
  main.fs st !! configPath = Some (readable content) ->
  config.Unmarshal content (config.MetricsConfig_ (main.sc st)) = (mm, None) ->
  config.validate mm = None ->
  Forall parses (config.Metrics mm) ->
  let served := main.reloadConfigHandler configPath false r st c in
  main.httpErrors served = [] /\
  main.fs (main.state served) = main.fs st /\
  config.MetricsConfig_ (main.sc (main.state served)) = mm /\
  Forall2 builtFrom (config.Metrics mm)
    (collector.opcuaMetricsCache (main.metricsCollector served)) /\
  main.registryCalls served
  = [main.Unregister c; main.Register (main.metricsCollector served)].
Proof.
  intros Hpost Hfile Hdec Hval Hall. unfold main.reloadConfigHandler.
  rewrite Hpost. simpl.
  unfold main.sendReloadChannel, main.reloadConfig, config.LoadMetricsConfig,
    config.Unserialize, ReadFile.
  rewrite Hfile, Hdec, Hval. simpl. repeat split.
  unfold collector.ReloadMetrics, collector.loadMetricsCache.
  by destruct (appendMetrics_all_parse _ [] Hall) as (cache & -> & H).
Qed.

End MainFacts.

(** ** Packages log and jsonlog *)

(** X26. Whatever string the verbosity is set from, the level is one of the
    five and the prefix stays. A level that lets a line of one kind through
    lets the lines of every more severe kind through, in the order debug,
    info, warn, err; the line of Fatal is always written. A string that is
    none of "debug", "info", "warn", "err", "fatal" (the empty default of the
    flag, or "error") sets the level warn: warnings and errors are written,
    debug and info lines are not. *)
Theorem verbosity_gates_lines (l : log.Logger) (v : string) :
  let l' := jsonlog.SetVerbosity l v in
  (0 <= log.Verbosity l' <= 4) /\
  log.Prefix l' = log.Prefix l /\
  (is_Some (jsonlog.Debug l') -> is_Some (jsonlog.Info l')) /\
  (is_Some (jsonlog.Info l') -> is_Some (jsonlog.Warn l')) /\
  (is_Some (jsonlog.Warn l') -> is_Some (jsonlog.Err l')) /\
  jsonlog.Fatal l' = Some jsonlog.Stderr /\
  (v <> "debug" -> v <> "info" -> v <> "warn" -> v <> "err" -> v <> "fatal" ->
   jsonlog.Debug l' = None /\ jsonlog.Info l' = None /\
   jsonlog.Warn l' = Some jsonlog.Stdout /\ jsonlog.Err l' = Some jsonlog.Stderr).
Proof.
  simpl. unfold jsonlog.Debug, jsonlog.Info, jsonlog.Warn, jsonlog.Err,
    jsonlog.SetVerbosity, log.GetVerbosityFromString. simpl.
  destruct (String.eqb_spec v "debug"); [by repeat split; eauto|].
  destruct (String.eqb_spec v "info");
    [repeat split; eauto; try done; by intros [? ?]|].
  destruct (String.eqb_spec v "warn");
    [repeat split; eauto; try done; by intros [? ?]|].
  destruct (String.eqb_spec v "err");
    [repeat split; eauto; try done; by intros [? ?]|].
  destruct (String.eqb_spec v "fatal");
    [repeat split; eauto; try done; by intros [? ?]|].
  repeat split; eauto; try done; by intros [? ?].
Qed.

(** ** The other text of package client *)

Section ClientPrevFacts.
Context {carriers : Carriers} {ext : Externals}.

(** X27. In the text of src/client/client.go an error of the negotiation
    does not stop the session from being built: getClientWithOptions logs it
    and returns a client for the endpoint URL that has the given options and
    the three fixed session options, and no security option. *)
Theorem negotiation_error_still_builds_client (cfg cfg' : client_prev.ServerConfig)
    (opts : list opcua.Option_) (e : error) :
  client_prev.clientSecurityOptions cfg = Ok (cfg', inr e) ->
  client_prev.getClientWithOptions cfg opts
  = Ok (cfg',
        opcua.NewClient (client_prev.Endpoint cfg')
          (opts ++ [opcua.Lifetime 600000000000; opcua.RequestTimeout 5000000000;
                    opcua.AutoReconnect true])).
Proof.
  intros H. unfold client_prev.getClientWithOptions. by rewrite H.
Qed.

(** X28. clientSecurityOptions writes through the pointers of the
    configuration and restores the policy only: after a call that returns
    options, the policy is the one before the call, and the mode is the empty
    string unless it lowers to "auto"; the endpoint, the certificate and key
    files, the auth mode, the user name and the password are as before. *)
Theorem mode_is_left_cleared (cfg cfg' : client_prev.ServerConfig)
    (o : list opcua.Option_) :
  client_prev.clientSecurityOptions cfg = Ok (cfg', inl o) ->
  client_prev.Policy cfg' = client_prev.Policy cfg /\
  client_prev.Mode cfg'
  = (if String.eqb (ToLower (client_prev.Mode cfg)) "auto"
     then client_prev.Mode cfg else "") /\
  client_prev.Endpoint cfg' = client_prev.Endpoint cfg /\
  client_prev.CertFile cfg' = client_prev.CertFile cfg /\
  client_prev.KeyFile cfg' = client_prev.KeyFile cfg /\
  client_prev.Auth cfg' = client_prev.Auth cfg /\
  client_prev.Username cfg' = client_prev.Username cfg /\
  client_prev.Password cfg' = client_prev.Password cfg.
Proof.
  unfold client_prev.clientSecurityOptions. intros H.
  destruct (GetEndpoints (client_prev.Endpoint cfg)) as [ee|err]; [|discriminate].
  apply bind_Ok in H as (authMode & _ & H).
  destruct (client_prev.policySwitch cfg) as [[secPolicy cfg1]|] eqn:Hp; [|discriminate].
  destruct (client_prev.modeSwitch cfg1) as [[secMode cfg2]|] eqn:Hm; [|discriminate].
  destruct (client.noneForBoth secMode secPolicy) as [m p].
  destruct (client_prev.bestEndpoint cfg2 m p ee); [|discriminate].
  injection H as <- _.
  assert (H1 : client_prev.Mode cfg1 = client_prev.Mode cfg /\
               client_prev.Endpoint cfg1 = client_prev.Endpoint cfg /\
               client_prev.CertFile cfg1 = client_prev.CertFile cfg /\
               client_prev.KeyFile cfg1 = client_prev.KeyFile cfg /\
               client_prev.Auth cfg1 = client_prev.Auth cfg /\
               client_prev.Username cfg1 = client_prev.Username cfg /\
               client_prev.Password cfg1 = client_prev.Password cfg).
  { unfold client_prev.policySwitch in Hp.
    repeat (case_match; try discriminate); injection Hp as _ <-; by repeat split. }
  destruct H1 as (HM & HE & HC & HK & HA & HU & HP).
  unfold client_prev.modeSwitch in Hm. rewrite HM in Hm. simpl.
  repeat (case_match; try discriminate); injection Hm as _ <-; simpl;
    by repeat split.
Qed.

End ClientPrevFacts.

Lemma refused_requests_change_nothing_witness :
  main.reloadConfigHandler "opcua.yaml" false
    {| main.Method := "GET"; main.Body := inl [] |}
    world.loadedState world.loadedCollector
  = {| main.state := world.loadedState; main.metricsCollector := world.loadedCollector;
       main.httpErrors := [{| main.message := "POST method expected";
                              main.cause := None; main.code := 400 |}];
       main.registryCalls := [] |} /\
  main.reloadConfigHandler "opcua.yaml" true
    {| main.Method := "POST"; main.Body := inr (errorString "unexpected EOF") |}
    world.loadedState world.loadedCollector
  = {| main.state := world.loadedState; main.metricsCollector := world.loadedCollector;
       main.httpErrors := [{| main.message := "can't read body";
                              main.cause := None; main.code := 400 |}];
       main.registryCalls := [] |}.
Proof.
  split.
  - apply (proj1 (refused_requests_change_nothing "opcua.yaml" false
                    {| main.Method := "GET"; main.Body := inl [] |}
                    world.loadedState world.loadedCollector)).
    discriminate.
  - apply (proj2 (refused_requests_change_nothing "opcua.yaml" true
                    {| main.Method := "POST";
                       main.Body := inr (errorString "unexpected EOF") |}
                    world.loadedState world.loadedCollector)
             (errorString "unexpected EOF")); reflexivity.
Defined.


Lemma accepted_reload_witness :
  let st := {| main.fs := {[ "opcua.yaml" := readable [Byte.x61] ]};
               main.sc := {| config.ServerConfig_ := world.serverConfig;
                             config.MetricsConfig_ := {| config.Metrics := [] |} |} |} in
  let served := main.reloadConfigHandler "opcua.yaml" false world.post st
                  world.emptyCollector in
  main.httpErrors served = [] /\
  config.MetricsConfig_ (main.sc (main.state served)) = world.twoMetrics /\
  length (collector.opcuaMetricsCache (main.metricsCollector served)) = 2%nat.
Proof.
  intros st served.
  destruct (accepted_reload "opcua.yaml" world.post st world.emptyCollector
              [Byte.x61] world.twoMetrics) as (He & _ & Hc & _);
    try reflexivity.
  { repeat constructor; eexists; reflexivity. }
  split; [exact He|]. split; [exact Hc | reflexivity].
Defined.

Lemma verbosity_gates_lines_witness :
  jsonlog.Info (jsonlog.SetVerbosity world.logger "error") = None /\
  jsonlog.Warn (jsonlog.SetVerbosity world.logger "error") = Some jsonlog.Stdout /\
  jsonlog.Err (jsonlog.SetVerbosity world.logger "error") = Some jsonlog.Stderr.
Proof.
  destruct (verbosity_gates_lines world.logger "error") as (_ & _ & _ & _ & _ & _ & H).
  destruct H as (_ & Hi & Hw & He); try discriminate.
  split; [exact Hi|]. split; [exact Hw | exact He].
Defined.

Lemma negotiation_error_still_builds_client_witness :
  let cfg := {| client_prev.Endpoint := "opc.tcp://plain";
                client_prev.CertFile := ""; client_prev.KeyFile := "";
                client_prev.Policy := "bogus"; client_prev.Mode := "auto";
                client_prev.Auth := "Anonymous";
                client_prev.Username := ""; client_prev.Password := "" |} in
  client_prev.getClientWithOptions cfg [opcua.AuthAnonymous]
  = Ok (cfg,
        opcua.NewClient "opc.tcp://plain"
          [opcua.AuthAnonymous; opcua.Lifetime 600000000000;
           opcua.RequestTimeout 5000000000; opcua.AutoReconnect true]).
Proof.
  intros cfg.
  apply (negotiation_error_still_builds_client cfg cfg [opcua.AuthAnonymous]
           (errorString "invalid security.Policy: %s")).
  reflexivity.
Defined.

Lemma mode_is_left_cleared_witness :
  let cfg := {| client_prev.Endpoint := "opc.tcp://example";
                client_prev.CertFile := ""; client_prev.KeyFile := "";
                client_prev.Policy := "Basic256Sha256"; client_prev.Mode := "Sign";
                client_prev.Auth := "Anonymous";
                client_prev.Username := ""; client_prev.Password := "" |} in
  exists cfg' o,
    client_prev.clientSecurityOptions cfg = Ok (cfg', inl o) /\
    client_prev.Policy cfg' = "Basic256Sha256" /\
    client_prev.Mode cfg' = "".
Proof.
  intros cfg.
  destruct (client_prev.clientSecurityOptions cfg) as [[cfg' [o|e]]| |] eqn:E;
    try (vm_compute in E; discriminate E).
  exists cfg', o. split; [reflexivity|].
  destruct (mode_is_left_cleared cfg cfg' o E) as (Hp & Hm & _).
  split; [exact Hp | exact Hm].
Defined.

Section HelperFacts.
Context {carriers : Carriers} {ext : Externals}.

(** X29. Where the run time visits every entry of a map once, fromMSSToSA
    gives the keys of the map, each once, and none of its values as such:
    a string is in the result exactly when the map has it as a key. *)
Theorem fromMSSToSA_gives_keys (input : gmap string string) :
  rangeMap input ≡ₚ map_to_list input ->
  NoDup (collector.fromMSSToSA input) /\
  length (collector.fromMSSToSA input) = size input /\
  forall k, k ∈ collector.fromMSSToSA input <-> is_Some (input !! k).
Proof.
  intros Hperm. unfold collector.fromMSSToSA.
  split; [rewrite Hperm; apply NoDup_fst_map_to_list|].
  split; [by rewrite length_fmap, Hperm, length_map_to_list|].
  intros k. rewrite Hperm, list_elem_of_fmap. split.
  - intros ([k' v] & -> & Hin). apply elem_of_map_to_list in Hin. eauto.
  - intros [v Hv]. exists (k, v). split; [done|]. by apply elem_of_map_to_list.
Qed.

End HelperFacts.

Lemma fromMSSToSA_gives_keys_witness :
  collector.fromMSSToSA {[ "site" := "MLK" ]} = ["site"].
Proof.
  destruct (fromMSSToSA_gives_keys {[ "site" := "MLK" ]}) as (_ & _ & _);
    reflexivity.
Defined.
